(** * Stream-mapping plugins: a shallow embedding of the three classifiers

    The development follows the three plugin modules of the repository:
    - [encoder_audio_ac3/plugin.py]            (module [EncoderAudioAc3]),
    - [extract_ass_subtitles_to_files/plugin.py] (module [ExtractAss]),
    - [reorder_audio_streams_by_language/plugin.py] (module [ReorderAudio]).

    Python text is modelled as [string] over 8-bit characters; the case and
    whitespace primitives below are those of Python restricted to ASCII.
    Python dictionaries ([tags], the hook's [data], [shared_info]) are [gmap]s
    with string keys, an absent key or an absent dictionary is [None].
    Code that can raise returns a [result]. *)

From Stdlib Require Import ZArith Lia Ascii DecimalString DecimalNat.
From stdpp Require Import base option list strings gmap.

Local Open Scope Z_scope.

(** ** Exceptions and results *)

Inductive exn : Type :=
  | AttributeError
  | KeyError (key : string)
  | NameError (name : string)
  | ValueError
  | NoSectionError
  | NoOptionError
  | OSError
  | TypeError
  | Exception (msg : string).

Inductive result (A : Type) : Type :=
  | Ok (a : A)
  | Raise (e : exn).
Arguments Ok {A} a.
Arguments Raise {A} e.

(** Sequencing of code that can raise; with these instances stdpp's
    [x ← r; k] reads as "run [r], stop at its exception, else go on". *)
#[global] Instance result_ret : MRet result := λ A a, Ok a.
#[global] Instance result_bind : MBind result := λ A B k r,
  match r with
  | Ok a => k a
  | Raise e => Raise e
  end.

(** ** Python string primitives (ASCII) *)

Module Py.

(** [c.isspace()] on ASCII: TAB, LF, VT, FF, CR, FS, GS, RS, US and SPACE;
    the class matched by the regular expression [\s] is the same one.
    Python knows further white space above 127 (U+0085, U+00A0, U+2003
    and others), the model does not: a statement that rests on this test
    being Python's is made for ASCII text, see [is_ascii]. *)
Definition isspace (c : ascii) : bool :=
  let n := N_of_ascii c in
  (((9 <=? n) && (n <=? 13)) || ((28 <=? n) && (n <=? 32)))%N.

Definition lower_ascii (c : ascii) : ascii :=
  let n := N_of_ascii c in
  if ((65 <=? n) && (n <=? 90))%N then ascii_of_N (n + 32) else c.

(** [s.lower()] on ASCII text: the letters A to Z are folded and a
    character above 127 is kept, where Python also folds the upper-case
    letters of other alphabets. *)
Fixpoint lower (s : string) : string :=
  match s with
  | EmptyString => EmptyString
  | String c s' => String (lower_ascii c) (lower s')
  end.

(** [s.startswith(p)] *)
Fixpoint startswith (p s : string) : bool :=
  match p, s with
  | EmptyString, _ => true
  | String a p', String b s' => Ascii.eqb a b && startswith p' s'
  | String _ _, EmptyString => false
  end.

(** [p in s] for two strings: substring test. *)
Fixpoint contains (p s : string) : bool :=
  startswith p s ||
  match s with
  | EmptyString => false
  | String _ s' => contains p s'
  end.

(** [x in l] for a list of strings. *)
Definition in_list (x : string) (l : list string) : bool :=
  bool_decide (x ∈ l).

(** [s.split(sep)] for a one-character separator. *)
Fixpoint split_on (sep : ascii) (s : string) : list string :=
  match s with
  | EmptyString => [EmptyString]
  | String c s' =>
      if Ascii.eqb c sep then EmptyString :: split_on sep s'
      else match split_on sep s' with
           | h :: t => String c h :: t
           | [] => [String c EmptyString]
           end
  end.

(** [l[-1]] on a list of strings; [split_on] never returns the empty list,
    the default is never used on its results. *)
Definition last_item (l : list string) : string := List.last l EmptyString.

(** [s.split()]: split on runs of whitespace, no empty fields. *)
Fixpoint split_ws_aux (cur : option string) (s : string) : list string :=
  match s with
  | EmptyString => match cur with Some w => [w] | None => [] end
  | String c s' =>
      if isspace c then
        match cur with
        | Some w => w :: split_ws_aux None s'
        | None => split_ws_aux None s'
        end
      else
        match cur with
        | Some w => split_ws_aux (Some (w +:+ String c EmptyString)) s'
        | None => split_ws_aux (Some (String c EmptyString)) s'
        end
  end.
Definition split_ws (s : string) : list string := split_ws_aux None s.

Fixpoint lstrip (s : string) : string :=
  match s with
  | EmptyString => EmptyString
  | String c s' => if isspace c then lstrip s' else s
  end.

(** Drop trailing whitespace. *)
Fixpoint rstrip (s : string) : string :=
  match s with
  | EmptyString => EmptyString
  | String c s' =>
      match rstrip s' with
      | EmptyString => if isspace c then EmptyString else String c EmptyString
      | r => String c r
      end
  end.

(** [s.strip()] *)
Definition strip (s : string) : string := rstrip (lstrip s).

(** [re.sub('\s', '-', s)] *)
Fixpoint sub_space_hyphen (s : string) : string :=
  match s with
  | EmptyString => EmptyString
  | String c s' =>
      String (if isspace c then "-"%char else c) (sub_space_hyphen s')
  end.

(** ['{}'.format(n)] for a non-negative integer. *)
Definition str_of_nat (n : nat) : string :=
  NilEmpty.string_of_uint (Nat.to_uint n).

(** ['{}'.format(z)] for an integer. *)
Definition str_of_Z (z : Z) : string :=
  NilZero.string_of_int (Z.to_int z).

(** [int(s)] for a string of decimal digits; anything else is the
    [ValueError] of Python (signs and surrounding blanks, which [int]
    also accepts, never occur in the tokens this is applied to). *)
Definition int_of_str (s : string) : result nat :=
  match s with
  | EmptyString => Raise ValueError
  | _ => match NilEmpty.uint_of_string s with
         | Some d => Ok (Nat.of_uint d)
         | None => Raise ValueError
         end
  end.

(** Truth value of a string-or-None. *)
Definition truthy (o : option string) : bool :=
  match o with
  | Some (String _ _) => true
  | _ => false
  end.

(** [c in s] for a single character [c]. *)
Fixpoint char_in (c : ascii) (s : string) : bool :=
  match s with
  | EmptyString => false
  | String a s' => Ascii.eqb a c || char_in c s'
  end.

(** [c.isdigit()] on ASCII. *)
Definition isdigit (c : ascii) : bool :=
  let n := N_of_ascii c in ((48 <=? n) && (n <=? 57))%N.

(** Whether every character of [s] passes the test [P]. *)
Fixpoint all_chars (P : ascii -> bool) (s : string) : bool :=
  match s with
  | EmptyString => true
  | String c s' => P c && all_chars P s'
  end.

(** [sep.join(l)] *)
Fixpoint join (sep : string) (l : list string) : string :=
  match l with
  | [] => EmptyString
  | [x] => x
  | x :: rest => x +:+ sep +:+ join sep rest
  end.

(** A character of ASCII; on a text of such characters the primitives
    above are those of Python. *)
Definition is_ascii (c : ascii) : bool := (N_of_ascii c <? 128)%N.

(** The characters of [s] that pass the test [P], in order. *)
Fixpoint keep_chars (P : ascii -> bool) (s : string) : string :=
  match s with
  | EmptyString => EmptyString
  | String c s' => if P c then String c (keep_chars P s') else keep_chars P s'
  end.

End Py.

(** ** The probe document *)

Inductive codec_type_t : Type := video | audio | subtitle | data | attachment.

#[global] Instance codec_type_eq_dec : EqDecision codec_type_t.
Proof. solve_decision. Defined.

(** One entry of the [streams] list of the probe document.  Only the keys
    the plugins read are kept; [None] is an absent key. *)
Record stream_info : Type := mk_stream {
  codec_type : codec_type_t;
  codec_name : option string;
  channels : option Z;
  tags : option (gmap string string);
  index : Z
}.

(** [d.get(k, '')] on a tags dictionary. *)
Definition get_or_empty (d : gmap string string) (k : string) : string :=
  default EmptyString (d !! k).

(** The pair returned by every [custom_stream_mapping]. *)
Record mapping : Type := mk_mapping {
  stream_mapping : list string;
  stream_encoding : list string
}.

(** ** encoder_audio_ac3/plugin.py *)

Module EncoderAudioAc3.

(** [Settings.settings]: the configured values, with the source's keys. *)
Record Settings : Type := mk_settings {
  advanced : bool;
  max_muxing_queue_size : Z;
  main_options : string;
  advanced_options : string;
  custom_options : string;
  codec_selection_mode : string;
  selected_codecs : list string
}.

(** The defaults of [Settings.settings]. *)
Definition settings : Settings :=
  {| advanced := false;
     max_muxing_queue_size := 2048;
     main_options := "";
     advanced_options := "";
     custom_options := "";
     codec_selection_mode := "all";
     selected_codecs := ["dts"; "dca"; "truehd"; "mp3"; "mp2"; "aac"] |}.

(** The values offered by the [selected_codecs] check boxes
    ([__set_selected_codecs_form_settings]), in the order of the form. *)
Definition checkbox_options : list string :=
  ["dts"; "dca"; "truehd"; "eac3"; "mp3"; "mp2"; "aac"; "opus"; "flac";
   "vorbis"; "pcm_s16le"; "other"].

(** [PluginStreamMapper.__init__]: [self.codec] and [self.encoder]. *)
Definition codec : string := "ac3".
Definition encoder : string := "ac3".

(** [calculate_bitrate]: [not channels] holds for an absent count and
    for 0; a count above 6 is replaced by 6 before the table is read. *)
Definition calculate_bitrate (stream : stream_info) : string :=
  match channels stream with
  | None => "640"
  | Some 0 => "640"
  | Some c =>
      let c := if 6 <? c then 6 else c in
      if c <=? 2 then "224"
      else if c <=? 4 then "448"
      else if c <=? 6 then "640"
      else "640"
  end.

(** [test_stream_needs_processing]: [.lower()] on an absent [codec_name]
    is Python's [AttributeError]; the settings are not consulted. *)
Definition test_stream_needs_processing (s : Settings) (stream : stream_info)
  : result bool :=
  match codec_name stream with
  | None => Raise AttributeError
  | Some n => if Py.in_list (Py.lower n) [codec] then Ok false else Ok true
  end.

(** [custom_stream_mapping] *)
Definition custom_stream_mapping (s : Settings) (stream : stream_info)
    (stream_id : nat) : mapping :=
  let stream_encoding := ["-c:a:" +:+ Py.str_of_nat stream_id; encoder] in
  let stream_encoding :=
    if advanced s then stream_encoding ++ Py.split_ws (custom_options s)
    else
      match channels stream with
      | None | Some 0 => stream_encoding
      | Some ch =>
          let calculated_bitrate := calculate_bitrate stream in
          let channels := if 6 <? ch then 6 else ch in
          stream_encoding ++
            ["-ac:a:" +:+ Py.str_of_nat stream_id; Py.str_of_Z channels;
             "-b:a:" +:+ Py.str_of_nat stream_id; calculated_bitrate +:+ "k"]
      end in
  {| stream_mapping := ["-map"; "0:a:" +:+ Py.str_of_nat stream_id];
     stream_encoding := stream_encoding |}.

(** The needs-processing test as the specification words it: the codec
    differs from the target and, in [selected] mode, is on the allow-list,
    where the entry [other] stands for every codec the form does not list. *)
Definition spec_needs_processing (s : Settings) (name : string) : bool :=
  let n := Py.lower name in
  negb (String.eqb n codec) &&
  (if String.eqb (codec_selection_mode s) "selected" then
     Py.in_list n (Py.lower <$> selected_codecs s) ||
     (Py.in_list "other" (Py.lower <$> selected_codecs s) &&
      negb (Py.in_list n checkbox_options))
   else true).

(** *** Sample inputs *)

(** An eight-channel DTS stream, second audio stream of its file. *)
Definition dts_8ch : stream_info :=
  {| codec_type := audio; codec_name := Some "dts"; channels := Some 8;
     tags := None; index := 2 |}.

(** [selected] mode with DTS as the only codec to convert. *)
Definition only_dts : Settings :=
  {| advanced := false; max_muxing_queue_size := 2048; main_options := "";
     advanced_options := ""; custom_options := "";
     codec_selection_mode := "selected"; selected_codecs := ["dts"] |}.

Definition aac_stereo : stream_info :=
  {| codec_type := audio; codec_name := Some "aac"; channels := Some 2;
     tags := None; index := 1 |}.

(** Advanced mode with a stereo down-mix written by the user. *)
Definition custom_stereo : Settings :=
  {| advanced := true; max_muxing_queue_size := 2048; main_options := "";
     advanced_options := ""; custom_options := "-ac 2  -b:a 192k ";
     codec_selection_mode := "all"; selected_codecs := [] |}.

Definition untitled_audio : stream_info :=
  {| codec_type := audio; codec_name := None; channels := None;
     tags := None; index := 1 |}.

End EncoderAudioAc3.

(** ** os.path, as far as the plugins use it (POSIX flavour) *)

Module OsPath.

Fixpoint has_slash (s : string) : bool :=
  match s with
  | EmptyString => false
  | String c s' => Ascii.eqb c "/" || has_slash s'
  end.

(** [p[:p.rfind('/') + 1]] *)
Fixpoint upto_last_slash (p : string) : string :=
  match p with
  | EmptyString => EmptyString
  | String c p' =>
      if has_slash p' then String c (upto_last_slash p')
      else if Ascii.eqb c "/" then String c EmptyString else EmptyString
  end.

(** [p[p.rfind('/') + 1:]] *)
Fixpoint basename (p : string) : string :=
  match p with
  | EmptyString => EmptyString
  | String c p' =>
      if has_slash p' then basename p'
      else if Ascii.eqb c "/" then p' else p
  end.

Fixpoint all_slashes (s : string) : bool :=
  match s with
  | EmptyString => true
  | String c s' => Ascii.eqb c "/" && all_slashes s'
  end.

(** [s.rstrip('/')] *)
Fixpoint rstrip_slash (s : string) : string :=
  match s with
  | EmptyString => EmptyString
  | String c s' =>
      match rstrip_slash s' with
      | EmptyString =>
          if Ascii.eqb c "/" then EmptyString else String c EmptyString
      | r => String c r
      end
  end.

Definition dirname (p : string) : string :=
  let head := upto_last_slash p in
  if all_slashes head then head else rstrip_slash head.

End OsPath.

(** ** extract_ass_subtitles_to_files/plugin.py *)

Module ExtractAss.

Record Settings : Type := mk_settings {
  languages_to_extract : string;
  include_title_in_output_file_name : bool
}.

(** The defaults of [Settings.settings]. *)
Definition settings : Settings :=
  {| languages_to_extract := ""; include_title_in_output_file_name := true |}.

(** One element of [self.sub_streams]. *)
Record sub_stream : Type := mk_sub_stream {
  sub_stream_id : nat;
  subtitle_tag : string;
  sub_stream_mapping : list string
}.

(** The mapper object: the attributes of the shared mapper base that
    [get_ffmpeg_args] reads, and the plugin's own [sub_streams].
    [input_file] is [None] until [set_input_file] stores a path. *)
Record mapper : Type := mk_mapper {
  generic_options : list string;
  main_options : list string;
  advanced_options : list string;
  input_file : option string;
  sub_streams : list sub_stream
}.

(** [_get_language_list]: the substitution of [\s] runs on the whole
    configured string, before [lower], [split], [filter] and [strip]. *)
Definition _get_language_list (s : Settings) : list string :=
  let language_list := languages_to_extract s in
  let language_list := Py.sub_space_hyphen language_list in
  let languages :=
    filter (λ x, x ≠ EmptyString) (Py.split_on "," (Py.lower language_list)) in
  Py.strip <$> languages.

(** The filter list as the specification words it: split on commas,
    lower-case, trim, drop the empty entries; white space that is left
    inside an entry becomes a hyphen. *)
Definition spec_language_list (configured : string) : list string :=
  filter (λ x, x ≠ EmptyString)
    ((λ x, Py.sub_space_hyphen (Py.strip (Py.lower x))) <$>
       Py.split_on "," configured).

(** [test_stream_needs_processing]: [stream_info.get('tags')] has no
    default, so [.get('language', '')] is called on [None] when the
    stream has no tags. *)
Definition test_stream_needs_processing (s : Settings) (stream : stream_info)
  : result bool :=
  if negb (Py.in_list (Py.lower (default EmptyString (codec_name stream)))
             ["ass"; "ssa"])
  then Ok false
  else
    let languages := _get_language_list s in
    if (length languages =? 0)%nat then Ok true
    else
      match tags stream with
      | None => Raise AttributeError
      | Some t =>
          let language_tag := Py.lower (get_or_empty t "language") in
          Ok (Py.in_list language_tag languages)
      end.

(** [re.sub('\s|/|\\\\', '-', s)] *)
Fixpoint sub_space_slash_hyphen (s : string) : string :=
  match s with
  | EmptyString => EmptyString
  | String c s' =>
      String (if Py.isspace c || Ascii.eqb c "/" || Ascii.eqb c "\"
              then "-"%char else c)
             (sub_space_slash_hyphen s')
  end.

(** [custom_stream_mapping]: here the tags are read with the default
    [{}], a stream without tags is handled. *)
Definition custom_stream_mapping (s : Settings) (m : mapper)
    (stream : stream_info) (stream_id : nat) : mapper * mapping :=
  let stream_tags := default ∅ (tags stream) in
  let language_tag := Py.lower (get_or_empty stream_tags "language") in
  let title_tag := get_or_empty stream_tags "title" in
  let languages := _get_language_list s in
  if (0 <? length languages)%nat && negb (Py.in_list language_tag languages)
  then (m, {| stream_mapping := []; stream_encoding := [] |})
  else
    let tag := EmptyString in
    let tag :=
      if Py.truthy (Some language_tag) then tag +:+ "." +:+ language_tag
      else tag in
    let tag :=
      if Py.truthy (Some title_tag) && include_title_in_output_file_name s
      then tag +:+ "." +:+ title_tag else tag in
    let tag :=
      if negb (Py.truthy (Some tag))
      then tag +:+ "." +:+ Py.str_of_Z (index stream) else tag in
    let tag := sub_space_slash_hyphen tag in
    let sel := "0:s:" +:+ Py.str_of_nat stream_id in
    ({| generic_options := generic_options m;
        main_options := main_options m;
        advanced_options := advanced_options m;
        input_file := input_file m;
        sub_streams := sub_streams m ++
          [{| sub_stream_id := stream_id; subtitle_tag := tag;
              sub_stream_mapping := ["-map"; sel] |}] |},
     {| stream_mapping := ["-map"; sel];
        stream_encoding := ["-c:s:" +:+ Py.str_of_nat stream_id; "copy"] |}).

(** [get_ffmpeg_args] *)
Definition get_ffmpeg_args (m : mapper) : result (list string) :=
  let args := [] in
  let args := args ++ generic_options m in
  if negb (Py.truthy (input_file m))
  then Raise (Exception "Input file has not been set")
  else
    let args := args ++ ["-i"; default EmptyString (input_file m)] in
    let args := args ++ main_options m in
    let args := args ++ advanced_options m in
    Ok args.

(** Names bound at module level of this plugin: its imports, its logger,
    its classes and its functions.  None of them is an exception class,
    and neither [NoSectionError] nor [NoOptionError] is among them. *)
Definition module_names : list string :=
  ["logging"; "os"; "re"; "PluginSettings"; "UnmanicDirectoryInfo";
   "StreamMapper"; "Probe"; "Parser"; "logger"; "Settings";
   "PluginStreamMapper"; "ass_already_extracted";
   "on_library_management_file_test"; "on_worker_process";
   "on_postprocessor_task_results"].

(** The builtin exception classes, each with its [isinstance] test on the
    exceptions of the model (all of them derive from [Exception]). *)
Definition builtin_class (name : string) : option (exn -> bool) :=
  if String.eqb name "Exception" then Some (λ _, true)
  else if String.eqb name "AttributeError"
  then Some (λ e, match e with AttributeError => true | _ => false end)
  else if String.eqb name "KeyError"
  then Some (λ e, match e with KeyError _ => true | _ => false end)
  else if String.eqb name "NameError"
  then Some (λ e, match e with NameError _ => true | _ => false end)
  else if String.eqb name "ValueError"
  then Some (λ e, match e with ValueError => true | _ => false end)
  else if String.eqb name "OSError"
  then Some (λ e, match e with OSError => true | _ => false end)
  else if String.eqb name "TypeError"
  then Some (λ e, match e with TypeError => true | _ => false end)
  else None.

(** Evaluation of the class expression of an [except] clause: module
    globals first, then builtins; an unbound name is a [NameError], a
    bound object that is no exception class a [TypeError]. *)
Definition resolve_class (name : string) : result (exn -> bool) :=
  if Py.in_list name module_names then Raise TypeError
  else match builtin_class name with
       | Some c => Ok c
       | None => Raise (NameError name)
       end.

(** The [except] clauses of a [try] statement, tried in order once the
    body has raised [e]; each class expression is evaluated only when its
    clause is reached. *)
Fixpoint try_except {A} (handlers : list (string * (exn -> result A)))
    (e : exn) : result A :=
  match handlers with
  | [] => Raise e
  | (cls, handler) :: rest =>
      match resolve_class cls with
      | Raise e' => Raise e'
      | Ok isinstance => if isinstance e then handler e else try_except rest e
      end
  end.

(** The [data] dictionary of the file-test hook. *)
Record file_test_data : Type := mk_file_test_data {
  library_id : option Z;
  path : string;
  add_file_to_pending_tasks : bool;
  shared_info : option (gmap string (list stream_info))
}.

Section Host.

(** The host and the probing tool are outside the plugin:
    - [directory_info_get dir section option] is the call
      [directory_info.get(section, option)] inside the [try], on the
      object [UnmanicDirectoryInfo(dir)] once it is constructed: a value
      (a string or [None]) or an exception.  The constructor runs before
      the [try] (line 157); it is taken to return here, and
      [ass_already_extracted_from] below adds its outcome;
    - [probe_file path] is the probe document when [Probe.file] succeeds;
    - [probe_set doc] tells whether [Probe.set_probe] accepts a document;
    - [load_settings id] is [Settings(library_id=id)], [Settings()] for
      [None]. *)
Variable directory_info_get : string -> string -> string -> result (option string).
Variable probe_file : string -> option (list stream_info).
Variable probe_set : list stream_info -> bool.
Variable load_settings : option Z -> Settings.

(** [ass_already_extracted] *)
Definition ass_already_extracted (s : Settings) (path : string) : result bool :=
  already_extracted ←
    match directory_info_get (OsPath.dirname path)
            "extract_ass_subtitles_to_files" (OsPath.basename path) with
    | Ok v => Ok v
    | Raise e =>
        try_except
          [("NoSectionError", λ _, Ok (Some EmptyString));
           ("NoOptionError", λ _, Ok (Some EmptyString));
           ("Exception", λ _, Ok (Some EmptyString))] e
    end;
  if Py.truthy already_extracted then Ok true else Ok false.

(** The body of [ass_already_extracted] from line 157 on:
    [directory_info_new dir] is the outcome of the constructor
    [UnmanicDirectoryInfo(dir)], which no handler covers. *)
Definition ass_already_extracted_from
    (directory_info_new : string -> result unit)
    (s : Settings) (path : string) : result bool :=
  _ ← directory_info_new (OsPath.dirname path);
  ass_already_extracted s path.

(** [on_library_management_file_test]; [Ok None] is the bare [return]. *)
Definition on_library_management_file_test (d : file_test_data)
  : result (option file_test_data) :=
  let s :=
    match library_id d with
    | None | Some 0 => load_settings None
    | Some id => load_settings (Some id)
    end in
  let abspath := path d in
  let shared : gmap string (list stream_info) := default ∅ (shared_info d) in
  let probe :=
    match shared !! "ffprobe" with
    | Some doc => if probe_set doc then Some doc else None
    | None => probe_file abspath
    end in
  match probe with
  | None => Ok None
  | Some doc =>
      match shared_info d with
      | None => Raise (KeyError "shared_info")
      | Some _ =>
          let d :=
            {| library_id := library_id d; path := path d;
               add_file_to_pending_tasks := add_file_to_pending_tasks d;
               shared_info := Some {[ "ffprobe" := doc ]} |} in
          already ← ass_already_extracted s abspath;
          if negb already
          then Ok (Some {| library_id := library_id d; path := path d;
                           add_file_to_pending_tasks := true;
                           shared_info := shared_info d |})
          else Ok (Some d)
      end
  end.

End Host.

(** *** Sample inputs and the vocabulary of the hook's statements *)

(** The configured value of the specification's example. *)
Definition eng_fre_jpn : Settings :=
  {| languages_to_extract := "eng, fre ,,JPN";
     include_title_in_output_file_name := true |}.

Definition only_eng : Settings :=
  {| languages_to_extract := "eng"; include_title_in_output_file_name := true |}.

Definition ass_untagged : stream_info :=
  {| codec_type := subtitle; codec_name := Some "ass"; channels := None;
     tags := None; index := 3 |}.

(** The input file counts as not set when the attribute is [None] or
    the empty string, the two values the guard [not self.input_file]
    lets through. *)
Definition input_file_unset (m : mapper) : Prop :=
  input_file m = None \/ input_file m = Some EmptyString.

Definition mapper_with_input : mapper :=
  {| generic_options := ["-hide_banner"; "-loglevel"; "info"];
     main_options := [];
     advanced_options := ["-map"; "0:s:0"; "-c:s:0"; "copy"];
     input_file := Some "/library/film.mkv";
     sub_streams := [] |}.

(** The [data] the hook returns when it goes through: the probe is
    stored in [shared_info], the rest is as received. *)
Definition with_probe (d : file_test_data) (doc : list stream_info)
  : file_test_data :=
  {| library_id := library_id d; path := path d;
     add_file_to_pending_tasks := add_file_to_pending_tasks d;
     shared_info := Some {[ "ffprobe" := doc ]} |}.

(** A sidecar with one record, for [film.mkv] in [/library]. *)
Definition sidecar (directory section key : string)
  : result (option string) :=
  if String.eqb directory "/library"
     && String.eqb section "extract_ass_subtitles_to_files"
     && String.eqb key "film.mkv"
  then Ok (Some "eng") else Ok None.

Definition film_data : file_test_data :=
  {| library_id := Some 1; path := "/library/film.mkv";
     add_file_to_pending_tasks := false; shared_info := Some ∅ |}.

Definition film_probe : list stream_info :=
  [ {| codec_type := video; codec_name := Some "h264"; channels := None;
       tags := None; index := 0 |};
    {| codec_type := subtitle; codec_name := Some "ass"; channels := None;
       tags := Some {[ "language" := "eng" ]}; index := 1 |} ].

(** *** The post-processor hook *)

(** The [data] dictionary of [on_postprocessor_task_results];
    [source_abspath] is [data['source_data']['abspath']]. *)
Record task_results_data : Type := mk_task_results_data {
  task_processing_success : bool;
  results_library_id : option Z;
  destination_files : list string;
  source_abspath : string
}.

(** The [language] tags of the subtitle streams that have one, in probe
    order (the list comprehension of the hook). *)
Definition subtitle_languages (probe_streams : list stream_info)
  : list string :=
  omap (λ stream,
          if bool_decide (codec_type stream = subtitle)
          then t ← tags stream; t !! "language"
          else None)
       probe_streams.

(** The value written for a destination file: the tags joined by
    blanks, kept only when they occur in the configured string (a
    substring test on the string as configured) if one is configured;
    the empty string when the probe has no streams. *)
Definition recorded_languages (langs : string)
    (probe_streams : list stream_info) : string :=
  match probe_streams with
  | [] => EmptyString
  | _ :: _ =>
      let subs := subtitle_languages probe_streams in
      let subs :=
        if Py.truthy (Some langs)
        then filter (λ i, Py.contains i langs = true) subs
        else subs in
      Py.join " " subs
  end.

Section PostProcessor.

(** The sidecar files are the host's: [store] is their content, and
    [directory_info_set w dir section option value] is the content after
    [UnmanicDirectoryInfo(dir).set(section, option, value)] and [save()].
    [probe_file] and [load_settings] are as for the file test. *)
Variable store : Type.
Variable directory_info_set :
  store -> string -> string -> string -> string -> store.
Variable probe_file : string -> option (list stream_info).
Variable load_settings : option Z -> Settings.

(** [on_postprocessor_task_results]: the sidecar content after the hook
    (the hook returns [data] as it received it). *)
Definition on_postprocessor_task_results (w : store) (d : task_results_data)
  : store :=
  if negb (task_processing_success d) then w
  else
    let s :=
      match results_library_id d with
      | None | Some 0 => load_settings None
      | Some id => load_settings (Some id)
      end in
    let abspath := source_abspath d in
    let probe_streams := default [] (probe_file abspath) in
    fold_left
      (λ w destination_file,
         let langs := languages_to_extract s in
         let subs := recorded_languages langs probe_streams in
         directory_info_set w (OsPath.dirname destination_file)
           "extract_ass_subtitles_to_files"
           (OsPath.basename destination_file) subs)
      (destination_files d) w.

End PostProcessor.

(** *** Sample sidecar store *)

(** A store as a finite map from directory, section and option to the
    value; a missing record reads as [None]. *)
Definition store_get (w : gmap (string * string * string) string)
    (directory section key : string) : result (option string) :=
  Ok (w !! (directory, section, key)).

Definition store_set (w : gmap (string * string * string) string)
    (directory section key value : string)
  : gmap (string * string * string) string :=
  <[(directory, section, key) := value]> w.

Definition film_results : task_results_data :=
  {| task_processing_success := true; results_library_id := Some 1;
     destination_files := ["/library/film.mkv"];
     source_abspath := "/cache/film.mkv" |}.

Definition ass_eng : stream_info :=
  {| codec_type := subtitle; codec_name := Some "ass"; channels := None;
     tags := Some {[ "language" := "eng" ]}; index := 1 |}.


(** Commas and nothing else. *)
Definition only_commas : Settings :=
  {| languages_to_extract := ",,"; include_title_in_output_file_name := true |}.

End ExtractAss.

(** ** reorder_audio_streams_by_language/plugin.py *)

Module ReorderAudio.

Record Settings : Type := mk_settings {
  Search_String : string;
  use_radarr : bool;
  radarr_url : string;
  radarr_api_key : string;
  use_sonarr : bool;
  sonarr_url : string;
  sonarr_api_key : string
}.

(** The defaults of [Settings.settings]. *)
Definition settings : Settings :=
  {| Search_String := "eng";
     use_radarr := false;
     radarr_url := "http://localhost:7878";
     radarr_api_key := "";
     use_sonarr := false;
     sonarr_url := "http://localhost:8989";
     sonarr_api_key := "" |}.

(** One entry of a lookup answer; [originalLanguage] is a dictionary. *)
Record media : Type := mk_media {
  originalLanguage : option (gmap string string)
}.

(** An entry of the language table. *)
Record language : Type := mk_language { alpha_3 : string }.

Section Lookup.

(** The lookup services and the language table are outside the plugin:
    - [lookup_movie url key path] is [RadarrAPI(url, key).lookup_movie(path)],
    - [lookup_series url key path] is [SonarrAPI(url, key).lookup_series(path)],
      each a list of entries or an exception of the client;
    - [languages_get name] is [pycountry.languages.get(name=name)]. *)
Variable lookup_movie : string -> string -> string -> result (list media).
Variable lookup_series : string -> string -> string -> result (list media).
Variable languages_get : string -> option language.

(** The part the two [get_language_from_*] methods share, from the
    answer of the lookup on. *)
Definition original_language_code (answer : list media)
  : result (option string) :=
  match answer with
  | [] => Ok None
  | first :: _ =>
      match originalLanguage first with
      | None => Ok None
      | Some original_language =>
          if bool_decide (original_language = ∅) then Ok None
          else
            match original_language !! "name" with
            | None => Raise (KeyError "name")
            | Some name =>
                match languages_get name with
                | Some lang => Ok (Some (alpha_3 lang))
                | None => Ok None
                end
            end
      end
  end.

(** [get_language_from_radarr] *)
Definition get_language_from_radarr (s : Settings) (abspath : string)
  : result (option string) :=
  if negb (Py.truthy (Some (radarr_url s)))
     || negb (Py.truthy (Some (radarr_api_key s)))
  then Ok None
  else
    movie_data ← lookup_movie (radarr_url s) (radarr_api_key s) abspath;
    original_language_code movie_data.

(** [get_language_from_sonarr] *)
Definition get_language_from_sonarr (s : Settings) (abspath : string)
  : result (option string) :=
  if negb (Py.truthy (Some (sonarr_url s)))
     || negb (Py.truthy (Some (sonarr_api_key s)))
  then Ok None
  else
    series_data ← lookup_series (sonarr_url s) (sonarr_api_key s) abspath;
    original_language_code series_data.

(** [set_langcode]: the value stored in [self.search_string]. *)
Definition set_langcode (s : Settings) (abspath : string) : result string :=
  original_langcode ←
    (if use_radarr s then get_language_from_radarr s abspath
     else Ok (Some EmptyString));
  original_langcode ←
    (if use_sonarr s && negb (Py.truthy original_langcode)
     then get_language_from_sonarr s abspath
     else Ok original_langcode);
  Ok (if Py.truthy original_langcode
      then default EmptyString original_langcode
      else Search_String s).

End Lookup.

(** The mapper object once [set_langcode] has stored the search string. *)
Record mapper : Type := mk_mapper {
  search_string : string;
  stream_type : codec_type_t;
  found_search_string_streams : bool;
  first_stream_mapping : list string;
  last_stream_mapping : list string;
  search_string_stream_mapping : list string;
  unmatched_stream_mapping : list string;
  advanced_options : list string
}.

(** [PluginStreamMapper.__init__], followed by [set_langcode]'s store. *)
Definition new_mapper (search : string) : mapper :=
  {| search_string := search;
     stream_type := audio;
     found_search_string_streams := false;
     first_stream_mapping := [];
     last_stream_mapping := [];
     search_string_stream_mapping := [];
     unmatched_stream_mapping := [];
     advanced_options := [] |}.

(** [test_tags_for_search_string]: the language test lower-cases both
    sides, the title test lower-cases the title only. *)
Definition test_tags_for_search_string (search : string)
    (stream_tags : option (gmap string string)) : bool :=
  match stream_tags with
  | None => false
  | Some t =>
      if negb (bool_decide (t = ∅)) &&
         existsb (λ k, Py.in_list (Py.lower k) ["title"; "language"])
                 (map_to_list t).*1
      then
        if Py.contains (Py.lower search) (Py.lower (get_or_empty t "language"))
        then true
        else if Py.contains search (Py.lower (get_or_empty t "title"))
        then true
        else false
      else false
  end.

(** [test_stream_needs_processing] *)
Definition test_stream_needs_processing (stream : stream_info) : bool := true.

(** The [ident] table of [custom_stream_mapping]. *)
Definition ident (t : codec_type_t) : string :=
  match t with
  | video => "v"
  | audio => "a"
  | subtitle => "s"
  | data => "d"
  | attachment => "t"
  end.

(** ["0:{}:{}".format(ident.get(codec_type), stream_id)] *)
Definition selector (t : codec_type_t) (stream_id : nat) : string :=
  "0:" +:+ ident t +:+ ":" +:+ Py.str_of_nat stream_id.

(** [custom_stream_mapping]: the returned mapping is always empty, the
    work is the update of the four buckets. *)
Definition custom_stream_mapping (m : mapper) (stream : stream_info)
    (stream_id : nat) : mapper * mapping :=
  let t := codec_type stream in
  let m' :=
    if bool_decide (t = stream_type m) then
      if test_tags_for_search_string (search_string m) (tags stream) then
        {| search_string := search_string m;
           stream_type := stream_type m;
           found_search_string_streams := true;
           first_stream_mapping := first_stream_mapping m;
           last_stream_mapping := last_stream_mapping m;
           search_string_stream_mapping :=
             if (length (search_string_stream_mapping m) =? 0)%nat
             then search_string_stream_mapping m ++
                    ["-map"; selector t stream_id;
                     "-disposition:" +:+ ident t +:+ ":" +:+ Py.str_of_nat 0;
                     "default"]
             else search_string_stream_mapping m ++
                    ["-map"; selector t stream_id];
           unmatched_stream_mapping := unmatched_stream_mapping m;
           advanced_options := advanced_options m |}
      else
        {| search_string := search_string m;
           stream_type := stream_type m;
           found_search_string_streams := found_search_string_streams m;
           first_stream_mapping := first_stream_mapping m;
           last_stream_mapping := last_stream_mapping m;
           search_string_stream_mapping := search_string_stream_mapping m;
           unmatched_stream_mapping :=
             unmatched_stream_mapping m ++ ["-map"; selector t stream_id];
           advanced_options := advanced_options m |}
    else if negb (found_search_string_streams m) then
      {| search_string := search_string m;
         stream_type := stream_type m;
         found_search_string_streams := found_search_string_streams m;
         first_stream_mapping :=
           first_stream_mapping m ++ ["-map"; selector t stream_id];
         last_stream_mapping := last_stream_mapping m;
         search_string_stream_mapping := search_string_stream_mapping m;
         unmatched_stream_mapping := unmatched_stream_mapping m;
         advanced_options := advanced_options m |}
    else
      {| search_string := search_string m;
         stream_type := stream_type m;
         found_search_string_streams := found_search_string_streams m;
         first_stream_mapping := first_stream_mapping m;
         last_stream_mapping :=
           last_stream_mapping m ++ ["-map"; selector t stream_id];
         search_string_stream_mapping := search_string_stream_mapping m;
         unmatched_stream_mapping := unmatched_stream_mapping m;
         advanced_options := advanced_options m |} in
  (m', {| stream_mapping := []; stream_encoding := [] |}).

(** Modelled from the spec: the driver [streams_need_processing] of the
    shared mapper base ([lib/ffmpeg], not part of the sources at hand).
    It goes over the streams in probe order, keeps one position counter
    per codec type, and hands every stream that passes
    [test_stream_needs_processing] to [custom_stream_mapping] together
    with its position among the streams of its own type.  Only the effect
    on the mapper is kept: [streams_to_be_reordered] drops the verdict. *)
Fixpoint map_streams (streams : list stream_info)
    (counter : codec_type_t -> nat) (m : mapper) : mapper :=
  match streams with
  | [] => m
  | stream :: rest =>
      let t := codec_type stream in
      let m' :=
        if test_stream_needs_processing stream
        then (custom_stream_mapping m stream (counter t)).1
        else m in
      map_streams rest
        (λ t', if bool_decide (t' = t) then S (counter t') else counter t') m'
  end.

Definition streams_need_processing (m : mapper) (streams : list stream_info)
  : mapper :=
  map_streams streams (λ _, 0%nat) m.

(** The loop of [streams_to_be_reordered] over the concatenated buckets;
    [Ok true] is the [break] with [result = True]. *)
Fixpoint scan_order (items : list string) (counter : nat) : result bool :=
  match items with
  | [] => Ok false
  | item :: rest =>
      if Py.contains "-map" item || Py.contains "-disposition" item
         || Py.contains "default" item
      then scan_order rest counter
      else
        original_position ← Py.int_of_str (Py.last_item (Py.split_on ":" item));
        if negb (original_position =? counter)%nat then Ok true
        else scan_order rest (S counter)
  end.

(** [streams_to_be_reordered] on the streams of the probe: the mapper
    after the call, and the returned verdict. *)
Definition streams_to_be_reordered (m : mapper) (streams : list stream_info)
  : mapper * result bool :=
  let m := streams_need_processing m streams in
  (m,
   match search_string_stream_mapping m, unmatched_stream_mapping m with
   | _ :: _, _ :: _ =>
       scan_order (search_string_stream_mapping m ++ unmatched_stream_mapping m) 0
   | _, _ => Ok false
   end).

(** The [data] dictionary of the file-test hook. *)
Record file_test_data : Type := mk_file_test_data {
  path : string;
  library_id : option Z;
  add_file_to_pending_tasks : bool
}.

Section Hooks.

(** Besides the lookup services, the hook uses the probing tool
    ([probe_file path] is the [streams] list when [Probe.file] succeeds)
    and the host's settings ([load_settings id] is
    [Settings(library_id=id)], [Settings()] for [None]). *)
Variable lookup_movie : string -> string -> string -> result (list media).
Variable lookup_series : string -> string -> string -> result (list media).
Variable languages_get : string -> option language.
Variable probe_file : string -> option (list stream_info).
Variable load_settings : option Z -> Settings.

(** [on_library_management_file_test]: the mapper is created by the
    hook itself and [streams_to_be_reordered] is called once on it. *)
Definition on_library_management_file_test (d : file_test_data)
  : result file_test_data :=
  let abspath := path d in
  match probe_file abspath with
  | None => Ok d
  | Some streams =>
      let s :=
        match library_id d with
        | None | Some 0 => load_settings None
        | Some id => load_settings (Some id)
        end in
      search ← set_langcode lookup_movie lookup_series languages_get s abspath;
      let mapper := new_mapper search in
      verdict ← (streams_to_be_reordered mapper streams).2;
      if verdict : bool
      then Ok {| path := path d; library_id := library_id d;
                 add_file_to_pending_tasks := true |}
      else Ok d
  end.

End Hooks.

(** [order_stream_mapping] *)
Definition order_stream_mapping (m : mapper) : mapper :=
  let args := ["-c"; "copy"; "-disposition:a"; "-default"] in
  let args := args ++ first_stream_mapping m in
  let args := args ++ search_string_stream_mapping m in
  let args := args ++ unmatched_stream_mapping m in
  let args := args ++ last_stream_mapping m in
  {| search_string := search_string m;
     stream_type := stream_type m;
     found_search_string_streams := found_search_string_streams m;
     first_stream_mapping := first_stream_mapping m;
     last_stream_mapping := last_stream_mapping m;
     search_string_stream_mapping := search_string_stream_mapping m;
     unmatched_stream_mapping := unmatched_stream_mapping m;
     advanced_options := advanced_options m ++ args |}.

(** *** The vocabulary of the specification, on the stream inventory *)

(** For each stream of the type of interest, in probe order, whether its
    tags match the search string; the position in this list is the
    stream's per-type index. *)
Definition match_flags (search : string) (streams : list stream_info)
  : list bool :=
  (λ s, test_tags_for_search_string search (tags s)) <$>
    filter (λ s, codec_type s = audio) streams.

(** The per-type indices, counted from [i], of the flags equal to [b]. *)
Fixpoint positions (b : bool) (i : nat) (flags : list bool) : list nat :=
  match flags with
  | [] => []
  | f :: rest =>
      if Bool.eqb f b then i :: positions b (S i) rest
      else positions b (S i) rest
  end.

Definition matched_indices (search : string) (streams : list stream_info)
  : list nat := positions true 0 (match_flags search streams).

Definition unmatched_indices (search : string) (streams : list stream_info)
  : list nat := positions false 0 (match_flags search streams).

(** Some stream of the sequence sits at a place other than its index. *)
Definition displaced (order : list nat) : Prop :=
  ∃ k i, order !! k = Some i ∧ i ≠ k.

(** The set is in the wanted order already: no stream that matches
    comes after one that does not. *)
Fixpoint ordered_flags (flags : list bool) : bool :=
  match flags with
  | [] => true
  | true :: rest => ordered_flags rest
  | false :: rest => forallb negb rest
  end.

Definition already_ordered (search : string) (streams : list stream_info)
  : bool := ordered_flags (match_flags search streams).

(** The tokens of the matched bucket for the given indices: the first
    fragment carries the disposition override, the others do not. *)
Definition matched_tokens (indices : list nat) : list string :=
  match indices with
  | [] => []
  | i :: rest =>
      ["-map"; selector audio i; "-disposition:a:0"; "default"] ++
      (rest ≫= λ j, ["-map"; selector audio j])
  end.

Definition unmatched_tokens (indices : list nat) : list string :=
  indices ≫= λ j, ["-map"; selector audio j].

(** The match test as the specification words it: the language tag
    contains the search string, both lower-cased, or the lower-cased
    title contains the lower-cased search string. *)
Definition spec_matches (search : string) (t : gmap string string) : bool :=
  match t !! "language", t !! "title" with
  | lang, title =>
      from_option (λ l, Py.contains (Py.lower search) (Py.lower l)) false lang
      || from_option (λ x, Py.contains (Py.lower search) (Py.lower x)) false title
  end.

(** Whether the scan of the index sequence, counting from [k], meets an
    index other than its count. *)
Fixpoint first_mismatch (order : list nat) (k : nat) : bool :=
  match order with
  | [] => false
  | i :: rest => if (i =? k)%nat then first_mismatch rest (S k) else true
  end.

(** The answers of a lookup that give no language: no entry at all, a
    first entry without (or with an empty) [originalLanguage], or a
    language name the table does not know. *)
Inductive no_language (languages_get : string -> option language)
  : list media -> Prop :=
  | empty_answer : no_language languages_get []
  | no_original_language first rest :
      originalLanguage first = None \/ originalLanguage first = Some ∅ ->
      no_language languages_get (first :: rest)
  | unknown_name first rest original_language name :
      originalLanguage first = Some original_language ->
      original_language !! "name" = Some name ->
      languages_get name = None ->
      no_language languages_get (first :: rest).

(** *** Sample inputs *)

(** Radarr off, Sonarr on and configured, default search string [spa]. *)
Definition sonarr_spa : Settings :=
  {| Search_String := "spa";
     use_radarr := false;
     radarr_url := "http://localhost:7878";
     radarr_api_key := "";
     use_sonarr := true;
     sonarr_url := "http://localhost:8989";
     sonarr_api_key := "0123456789abcdef" |}.

Definition audio_stream (t : gmap string string) : stream_info :=
  {| codec_type := audio; codec_name := Some "aac"; channels := Some 2;
     tags := Some t; index := 0 |}.

Definition video_stream : stream_info :=
  {| codec_type := video; codec_name := Some "h264"; channels := None;
     tags := None; index := 0 |}.

(** An audio stream whose title, not its language tag, names English. *)
Definition titled_eng : gmap string string :=
  {[ "language" := "und"; "title" := "ENG Stereo" ]}.

(** The inventory of the specification's example: audio en, video,
    audio fr, audio en. *)
Definition en_video_fr_en : list stream_info :=
  [audio_stream {[ "language" := "en" ]}; video_stream;
   audio_stream {[ "language" := "fr" ]}; audio_stream {[ "language" := "en" ]}].

(** The same streams with the two English ones first. *)
Definition en_en_video_fr : list stream_info :=
  [audio_stream {[ "language" := "en" ]}; audio_stream {[ "language" := "en" ]};
   video_stream; audio_stream {[ "language" := "fr" ]}].

(** *** The inventory with positions *)

(** The streams paired with their positions among the streams of their
    own type, the counters starting from [c]. *)
Fixpoint numbered (streams : list stream_info) (c : codec_type_t -> nat)
  : list (stream_info * nat) :=
  match streams with
  | [] => []
  | stream :: rest =>
      (stream, c (codec_type stream)) ::
      numbered rest
        (λ t', if bool_decide (t' = codec_type stream)
               then S (c t') else c t')
  end.

(** An audio stream whose tags match the search string. *)
Definition is_match (search : string) (stream : stream_info) : bool :=
  bool_decide (codec_type stream = audio)
  && test_tags_for_search_string search (tags stream).

(** The streams in front of the first match, and those from it on. *)
Fixpoint before_first_match (search : string) (l : list (stream_info * nat))
  : list (stream_info * nat) :=
  match l with
  | [] => []
  | p :: rest =>
      if is_match search p.1 then [] else p :: before_first_match search rest
  end.

Fixpoint from_first_match (search : string) (l : list (stream_info * nat))
  : list (stream_info * nat) :=
  match l with
  | [] => []
  | p :: rest => if is_match search p.1 then l else from_first_match search rest
  end.

(** The mapping tokens of a list of streams with positions. *)
Definition tokens (l : list (stream_info * nat)) : list string :=
  l ≫= λ p, ["-map"; selector (codec_type p.1) p.2].

(** The streams in the order in which the arguments of
    [order_stream_mapping] map them: the other streams in front of the
    first match, the matching audio streams, the other audio streams,
    the other streams from the first match on. *)
Definition reordered (search : string) (streams : list stream_info)
  : list stream_info :=
  let l := numbered streams (λ _, 0%nat) in
  (filter (λ p, codec_type p.1 <> audio) (before_first_match search l) ++
   filter (λ p, is_match search p.1 = true) l ++
   filter (λ p, codec_type p.1 = audio /\ is_match search p.1 = false) l ++
   filter (λ p, codec_type p.1 <> audio) (from_first_match search l)).*1.

(** The answers of a lookup that give a language code: the first entry
    has an [originalLanguage] whose [name] the table knows. *)
Inductive gives_code (languages_get : string -> option language)
  : list media -> string -> Prop :=
  | known_name first rest original_language name lang :
      originalLanguage first = Some original_language ->
      original_language !! "name" = Some name ->
      languages_get name = Some lang ->
      gives_code languages_get (first :: rest) (alpha_3 lang).

(** *** More sample inputs *)

(** A lookup answer for a French title, and a small language table. *)
Definition french_answer : list media :=
  [{| originalLanguage := Some {[ "id" := "2"; "name" := "French" ]} |}].

Definition iso_639 (name : string) : option language :=
  if String.eqb name "French" then Some {| alpha_3 := "fra" |}
  else if String.eqb name "English" then Some {| alpha_3 := "eng" |}
  else None.


(** Radarr on and configured, Sonarr off. *)
Definition radarr_on : Settings :=
  {| Search_String := "eng";
     use_radarr := true;
     radarr_url := "http://localhost:7878";
     radarr_api_key := "0123456789abcdef";
     use_sonarr := false;
     sonarr_url := "http://localhost:8989";
     sonarr_api_key := "" |}.

Definition film_test : file_test_data :=
  {| path := "/library/film.mkv"; library_id := Some 1;
     add_file_to_pending_tasks := false |}.

(** The default settings with the search string [en]. *)
Definition search_en : Settings :=
  {| Search_String := "en";
     use_radarr := false;
     radarr_url := "http://localhost:7878";
     radarr_api_key := "";
     use_sonarr := false;
     sonarr_url := "http://localhost:8989";
     sonarr_api_key := "" |}.

End ReorderAudio.

(** * Properties *)

(** ** encoder_audio_ac3 *)

Module EncoderAudioAc3Facts.
Import EncoderAudioAc3.

(** After the clamp the count is at most 6, so the last two branches of
    the table give the same rate. *)
Lemma calculate_bitrate_cases (stream : stream_info) (c : Z) :
  channels stream = Some c -> c <> 0 ->
  calculate_bitrate stream =
    if c <=? 2 then "224" else if c <=? 4 then "448" else "640".
Proof.
  intros Hc Hz. unfold calculate_bitrate. rewrite Hc.
  destruct c as [|p|p]; [lia| |reflexivity].
  destruct (6 <? Z.pos p) eqn:H6.
  - apply Z.ltb_lt in H6.
    destruct (Z.pos p <=? 2) eqn:H2; [apply Z.leb_le in H2; lia|].
    destruct (Z.pos p <=? 4) eqn:H4; [apply Z.leb_le in H4; lia|].
    reflexivity.
  - destruct (Z.pos p <=? 2); [reflexivity|].
    destruct (Z.pos p <=? 4); [reflexivity|].
    destruct (Z.pos p <=? 6); reflexivity.
Qed.

(** In basic mode a stream with more than 6 channels is encoded with
    the channel token 6 and the top rate. *)
Lemma custom_stream_mapping_clamped (s : Settings) (stream : stream_info)
    (stream_id : nat) (c : Z) :
  advanced s = false -> channels stream = Some c -> 6 < c ->
  stream_encoding (custom_stream_mapping s stream stream_id) =
    ["-c:a:" +:+ Py.str_of_nat stream_id; "ac3";
     "-ac:a:" +:+ Py.str_of_nat stream_id; "6";
     "-b:a:" +:+ Py.str_of_nat stream_id; "640k"].
Proof.
  intros Ha Hc H6. unfold custom_stream_mapping. rewrite Ha. cbn [stream_encoding].
  rewrite (calculate_bitrate_cases stream c Hc) by lia. rewrite Hc.
  destruct c as [|p|p]; [lia| |lia].
  replace (6 <? Z.pos p) with true by (symmetry; apply Z.ltb_lt; lia).
  replace (Z.pos p <=? 2) with false by (symmetry; apply Z.leb_gt; lia).
  replace (Z.pos p <=? 4) with false by (symmetry; apply Z.leb_gt; lia).
  reflexivity.
Qed.

(** C5: the bit rate is 224 for 1 or 2 channels, 448 for 3 or 4, 640 for
    5 or 6, and 640 when the channel count is absent, zero or above 6;
    above 6 the channel token written after [-ac] (basic mode, the only
    mode in which the plugin writes one) is 6. *)
Theorem bitrate_by_channels (s : Settings) (stream : stream_info)
    (stream_id : nat) :
  (channels stream = None -> calculate_bitrate stream = "640") /\
  (channels stream = Some 0 -> calculate_bitrate stream = "640") /\
  (forall c, channels stream = Some c ->
     (c = 1 \/ c = 2 -> calculate_bitrate stream = "224") /\
     (c = 3 \/ c = 4 -> calculate_bitrate stream = "448") /\
     (c = 5 \/ c = 6 -> calculate_bitrate stream = "640") /\
     (6 < c ->
        calculate_bitrate stream = "640" /\
        (advanced s = false ->
         stream_encoding (custom_stream_mapping s stream stream_id) =
           ["-c:a:" +:+ Py.str_of_nat stream_id; "ac3";
            "-ac:a:" +:+ Py.str_of_nat stream_id; "6";
            "-b:a:" +:+ Py.str_of_nat stream_id; "640k"]) /\
        (advanced s = true ->
         stream_encoding (custom_stream_mapping s stream stream_id) =
           ["-c:a:" +:+ Py.str_of_nat stream_id; "ac3"] ++
           Py.split_ws (custom_options s)))).
Proof.
  split; [|split].
  - intros H. unfold calculate_bitrate. now rewrite H.
  - intros H. unfold calculate_bitrate. now rewrite H.
  - intros c Hc. split; [|split; [|split]].
    + intros [-> | ->]; unfold calculate_bitrate; now rewrite Hc.
    + intros [-> | ->]; unfold calculate_bitrate; now rewrite Hc.
    + intros [-> | ->]; unfold calculate_bitrate; now rewrite Hc.
    + intros H6. split; [|split].
      * rewrite (calculate_bitrate_cases stream c Hc) by lia.
        replace (c <=? 2) with false by (symmetry; apply Z.leb_gt; lia).
        replace (c <=? 4) with false by (symmetry; apply Z.leb_gt; lia).
        reflexivity.
      * intros Ha.
        now apply (custom_stream_mapping_clamped s stream stream_id c).
      * intros Ha. unfold custom_stream_mapping. now rewrite Ha.
Qed.

Lemma bitrate_by_channels_witness :
  calculate_bitrate dts_8ch = "640" /\
  stream_encoding (custom_stream_mapping settings dts_8ch 1) =
    ["-c:a:1"; "ac3"; "-ac:a:1"; "6"; "-b:a:1"; "640k"].
Proof.
  destruct (bitrate_by_channels settings dts_8ch 1) as (_ & _ & H).
  destruct (H 8 eq_refl) as (_ & _ & _ & H6).
  destruct (H6 ltac:(lia)) as (Hb & Hbasic & _).
  split; [exact Hb | exact (Hbasic eq_refl)].
Defined.

(** The test never reads the settings. *)
Lemma test_stream_needs_processing_settings (s s' : Settings)
    (stream : stream_info) :
  test_stream_needs_processing s stream = test_stream_needs_processing s' stream.
Proof. reflexivity. Qed.

(** A stream already in AC3 is left alone, whatever the mode. *)
Lemma ac3_never_processed (s : Settings) (stream : stream_info) (n : string) :
  codec_name stream = Some n -> Py.lower n = "ac3" ->
  test_stream_needs_processing s stream = Ok false.
Proof.
  intros Hn Hl. unfold test_stream_needs_processing. rewrite Hn, Hl. reflexivity.
Qed.

(** C2: in [selected] mode with the allow-list [dts], an AAC stream is not
    on the list and must be left alone, yet the test of the plugin asks
    for its conversion: the selection settings are never read. *)
Theorem selection_mode_ignored :
  test_stream_needs_processing only_dts aac_stereo = Ok true /\
  spec_needs_processing only_dts "aac" = false.
Proof. split; reflexivity. Qed.

End EncoderAudioAc3Facts.

(** ** extract_ass_subtitles_to_files *)

Module ExtractAssFacts.
Import ExtractAss.

(** C3: on the configured string [eng, fre ,,JPN] the plugin builds the
    list [eng], [-fre-], [jpn]: the blanks around [fre] were turned into
    hyphens before the split, the later [strip] finds nothing to trim,
    and [fre] is not in the list.  Split, lower-case, trim, drop empties
    gives [eng], [fre], [jpn]. *)
Theorem language_list_blanks_become_hyphens :
  _get_language_list eng_fre_jpn = ["eng"; "-fre-"; "jpn"] /\
  Py.in_list "fre" (_get_language_list eng_fre_jpn) = false /\
  spec_language_list (languages_to_extract eng_fre_jpn) = ["eng"; "fre"; "jpn"].
Proof. split; [|split]; reflexivity. Qed.

(** A subtitle stream in ASS without a [tags] dictionary makes the test
    raise as soon as a language filter is configured. *)
Lemma untagged_stream_raises (s : Settings) (stream : stream_info) :
  Py.in_list (Py.lower (default EmptyString (codec_name stream)))
    ["ass"; "ssa"] = true ->
  _get_language_list s <> [] ->
  tags stream = None ->
  test_stream_needs_processing s stream = Raise AttributeError.
Proof.
  intros Hc Hl Ht. unfold test_stream_needs_processing. rewrite Hc. cbn [negb].
  destruct (_get_language_list s) as [|l ls]; [congruence|].
  cbn [length Nat.eqb]. now rewrite Ht.
Qed.

(** C6: for the ASS stream without [tags] and the filter [eng] the test
    does not return false, it raises [AttributeError]; the mapping method
    next to it reads the tags with a default and handles the same stream. *)
Theorem untagged_ass_stream_raises :
  test_stream_needs_processing only_eng ass_untagged = Raise AttributeError /\
  (custom_stream_mapping only_eng (mk_mapper [] [] [] None []) ass_untagged 0).2
    = {| stream_mapping := []; stream_encoding := [] |}.
Proof. split; reflexivity. Qed.

Lemma truthy_false (o : option string) :
  Py.truthy o = false <-> o = None \/ o = Some EmptyString.
Proof.
  destruct o as [[|c s]|]; cbn; split; intros H; try tauto;
    try discriminate; destruct H; discriminate.
Qed.

(** C10: [get_ffmpeg_args] raises its precondition error exactly when
    the input file has not been set; otherwise it returns the generic
    options, [-i] and the file, the main options and the advanced ones. *)
Theorem get_ffmpeg_args_precondition (m : mapper) :
  ((exists e, get_ffmpeg_args m = Raise e) <-> input_file_unset m) /\
  (input_file_unset m ->
     get_ffmpeg_args m = Raise (Exception "Input file has not been set")) /\
  (forall f, input_file m = Some f -> f <> EmptyString ->
     get_ffmpeg_args m =
       Ok (generic_options m ++ ["-i"; f] ++ main_options m ++ advanced_options m)).
Proof.
  unfold input_file_unset, get_ffmpeg_args.
  split; [|split].
  - rewrite <- truthy_false.
    destruct (Py.truthy (input_file m)); cbn [negb]; split.
    + intros [e He]. discriminate He.
    + discriminate.
    + reflexivity.
    + intros _. eauto.
  - intros H. apply truthy_false in H. now rewrite H.
  - intros f Hf Hne. rewrite Hf. destruct f as [|c f]; [congruence|].
    cbn. now rewrite <- !app_assoc.
Qed.

Lemma get_ffmpeg_args_precondition_witness :
  get_ffmpeg_args (mk_mapper [] [] [] None []) =
    Raise (Exception "Input file has not been set") /\
  get_ffmpeg_args mapper_with_input =
    Ok ["-hide_banner"; "-loglevel"; "info"; "-i"; "/library/film.mkv";
        "-map"; "0:s:0"; "-c:s:0"; "copy"].
Proof.
  split.
  - apply (get_ffmpeg_args_precondition (mk_mapper [] [] [] None [])).
    left. reflexivity.
  - apply (proj2 (proj2 (get_ffmpeg_args_precondition mapper_with_input))
             "/library/film.mkv"); [reflexivity | discriminate].
Defined.

Section HostFacts.

Variable directory_info_get : string -> string -> string -> result (option string).
Variable probe_file : string -> option (list stream_info).
Variable probe_set : list stream_info -> bool.
Variable load_settings : option Z -> Settings.

(** The first [except] clause names a class the module never imported:
    whatever the read raised, the handler itself raises [NameError]. *)
Lemma handlers_raise_name_error (e : exn) :
  try_except (A := option string)
    [("NoSectionError", λ _, Ok (Some EmptyString));
     ("NoOptionError", λ _, Ok (Some EmptyString));
     ("Exception", λ _, Ok (Some EmptyString))] e
  = Raise (NameError "NoSectionError").
Proof. reflexivity. Qed.

(** C8: when the read of the sidecar raises, whatever the exception,
    [ass_already_extracted] does not return false: it raises
    [NameError], the first handler names the unbound [NoSectionError]. *)
Theorem sidecar_error_propagates (e : exn) (s : Settings) (p : string) :
  directory_info_get (OsPath.dirname p) "extract_ass_subtitles_to_files"
    (OsPath.basename p) = Raise e ->
  ass_already_extracted directory_info_get s p
    = Raise (NameError "NoSectionError").
Proof.
  intros H. unfold ass_already_extracted. rewrite H.
  rewrite handlers_raise_name_error. reflexivity.
Qed.

(** A non-empty marker is reported as "already extracted". *)
Lemma marker_found (s : Settings) (p v : string) :
  directory_info_get (OsPath.dirname p) "extract_ass_subtitles_to_files"
    (OsPath.basename p) = Ok (Some v) ->
  v <> EmptyString ->
  ass_already_extracted directory_info_get s p = Ok true.
Proof.
  intros H Hv. unfold ass_already_extracted. rewrite H.
  destruct v as [|c v]; [congruence|]. reflexivity.
Qed.

(** C7: with a non-empty marker recorded for the file name, the
    detection answers "already extracted" and the file-test hook never
    sets [add_file_to_pending_tasks]: it stops without a result when the
    probe fails, fails on a [data] without [shared_info], and otherwise
    returns the [data] with the flag as it received it; the last case is
    the one of a file the host probes with [shared_info] present. *)
Theorem marked_file_not_queued (d : file_test_data) (v : string) :
  directory_info_get (OsPath.dirname (path d))
    "extract_ass_subtitles_to_files" (OsPath.basename (path d)) = Ok (Some v) ->
  v <> EmptyString ->
  (forall s, ass_already_extracted directory_info_get s (path d) = Ok true) /\
  (let r := on_library_management_file_test directory_info_get probe_file
              probe_set load_settings d in
   r = Ok None \/ r = Raise (KeyError "shared_info") \/
   exists doc, r = Ok (Some (with_probe d doc))) /\
  (forall shared doc,
     shared_info d = Some shared -> shared !! "ffprobe" = None ->
     probe_file (path d) = Some doc ->
     on_library_management_file_test directory_info_get probe_file
       probe_set load_settings d = Ok (Some (with_probe d doc)) /\
     add_file_to_pending_tasks (with_probe d doc) = add_file_to_pending_tasks d).
Proof.
  intros H Hv.
  assert (Hm : forall s, ass_already_extracted directory_info_get s (path d) = Ok true)
    by (intros s; now apply marker_found with v).
  split; [exact Hm|]. split.
  - cbn zeta. unfold on_library_management_file_test.
    match goal with
    | |- context [match ?p with Some doc => _ | None => Ok None end] =>
        destruct p as [doc|]
    end; [|now left].
    destruct (shared_info d) as [shared|]; [|right; now left].
    right; right. exists doc. cbn [path]. rewrite Hm. reflexivity.
  - intros shared doc Hs Hf Hp. split; [|reflexivity].
    unfold on_library_management_file_test. rewrite Hs.
    cbn [from_option id]. cbv zeta. rewrite Hf, Hp. cbn [path].
    rewrite Hm. reflexivity.
Qed.

End HostFacts.

Lemma marked_file_not_queued_witness :
  on_library_management_file_test sidecar (λ _, Some film_probe) (λ _, true)
    (λ _, settings) film_data = Ok (Some (with_probe film_data film_probe)) /\
  add_file_to_pending_tasks (with_probe film_data film_probe) = false.
Proof.
  refine (proj2 (proj2 (marked_file_not_queued sidecar (λ _, Some film_probe)
            (λ _, true) (λ _, settings) film_data "eng" _ _)) ∅ film_probe _ _ _).
  - reflexivity.
  - discriminate.
  - reflexivity.
  - reflexivity.
  - reflexivity.
Defined.

Lemma sidecar_error_propagates_witness :
  ass_already_extracted (λ _ _ _, Raise NoSectionError) settings
    "/library/film.mkv" = Raise (NameError "NoSectionError").
Proof.
  apply (sidecar_error_propagates (λ _ _ _, Raise NoSectionError)
           NoSectionError settings "/library/film.mkv").
  reflexivity.
Defined.

End ExtractAssFacts.

(** ** reorder_audio_streams_by_language: the language resolver *)

Module ResolverFacts.
Import ReorderAudio.

Section LookupFacts.

Variable lookup_movie : string -> string -> string -> result (list media).
Variable lookup_series : string -> string -> string -> result (list media).
Variable languages_get : string -> option language.

Lemma no_language_no_code (answer : list media) :
  no_language languages_get answer ->
  original_language_code languages_get answer = Ok None.
Proof.
  intros [|first rest [H|H]|first rest ol name Hol Hname Hget]; cbn.
  - reflexivity.
  - now rewrite H.
  - rewrite H. now rewrite bool_decide_eq_true_2.
  - rewrite Hol, Hname, Hget. now destruct (bool_decide (ol = ∅)).
Qed.

Lemma truthy_empty_or (a b : string) :
  a = EmptyString \/ b = EmptyString ->
  negb (Py.truthy (Some a)) || negb (Py.truthy (Some b)) = true.
Proof. intros [-> | ->]; [reflexivity|]. destruct a; reflexivity. Qed.

Lemma radarr_no_result (s : Settings) (abspath : string) :
  (radarr_url s = EmptyString \/ radarr_api_key s = EmptyString) \/
  (exists answer,
     lookup_movie (radarr_url s) (radarr_api_key s) abspath = Ok answer /\
     no_language languages_get answer) ->
  get_language_from_radarr lookup_movie languages_get s abspath = Ok None.
Proof.
  intros [H | (answer & Ha & Hn)]; unfold get_language_from_radarr.
  - now rewrite truthy_empty_or.
  - destruct (_ || _); [reflexivity|]. rewrite Ha. cbn.
    now apply no_language_no_code.
Qed.

Lemma sonarr_no_result (s : Settings) (abspath : string) :
  (sonarr_url s = EmptyString \/ sonarr_api_key s = EmptyString) \/
  (exists answer,
     lookup_series (sonarr_url s) (sonarr_api_key s) abspath = Ok answer /\
     no_language languages_get answer) ->
  get_language_from_sonarr lookup_series languages_get s abspath = Ok None.
Proof.
  intros [H | (answer & Ha & Hn)]; unfold get_language_from_sonarr.
  - now rewrite truthy_empty_or.
  - destruct (_ || _); [reflexivity|]. rewrite Ha. cbn.
    now apply no_language_no_code.
Qed.

Lemma truthy_filled (a : string) :
  a <> EmptyString -> Py.truthy (Some a) = true.
Proof. destruct a; [congruence | reflexivity]. Qed.

Lemma gives_code_code (answer : list media) (code : string) :
  gives_code languages_get answer code ->
  original_language_code languages_get answer = Ok (Some code).
Proof.
  intros [first rest ol name lang Ho Hn Hg]. cbn. rewrite Ho.
  rewrite bool_decide_eq_false_2
    by (intros ->; now rewrite lookup_empty in Hn).
  now rewrite Hn, Hg.
Qed.

Lemma radarr_code (s : Settings) (abspath : string) (answer : list media)
    (code : string) :
  radarr_url s <> EmptyString -> radarr_api_key s <> EmptyString ->
  lookup_movie (radarr_url s) (radarr_api_key s) abspath = Ok answer ->
  gives_code languages_get answer code ->
  get_language_from_radarr lookup_movie languages_get s abspath = Ok (Some code).
Proof.
  intros Hu Hk Ha Hg. unfold get_language_from_radarr.
  rewrite (truthy_filled _ Hu), (truthy_filled _ Hk), Ha. cbn.
  now apply gives_code_code.
Qed.

Lemma sonarr_code (s : Settings) (abspath : string) (answer : list media)
    (code : string) :
  sonarr_url s <> EmptyString -> sonarr_api_key s <> EmptyString ->
  lookup_series (sonarr_url s) (sonarr_api_key s) abspath = Ok answer ->
  gives_code languages_get answer code ->
  get_language_from_sonarr lookup_series languages_get s abspath = Ok (Some code).
Proof.
  intros Hu Hk Ha Hg. unfold get_language_from_sonarr.
  rewrite (truthy_filled _ Hu), (truthy_filled _ Hk), Ha. cbn.
  now apply gives_code_code.
Qed.

(** What the first step of [set_langcode] leaves when Radarr is off or
    answers "no result": [None] or the initial empty string. *)
Lemma first_source_nothing (s : Settings) (abspath : string) :
  use_radarr s = false \/
  (radarr_url s = EmptyString \/ radarr_api_key s = EmptyString) \/
  (exists answer,
     lookup_movie (radarr_url s) (radarr_api_key s) abspath = Ok answer /\
     no_language languages_get answer) ->
  exists o,
    (if use_radarr s
     then get_language_from_radarr lookup_movie languages_get s abspath
     else Ok (Some EmptyString)) = Ok o /\ Py.truthy o = false.
Proof.
  intros [Hu | Hn].
  - rewrite Hu. now exists (Some EmptyString).
  - rewrite (radarr_no_result s abspath Hn).
    destruct (use_radarr s); [now exists None | now exists (Some EmptyString)].
Qed.

(** C9: the resolver asks Radarr first, Sonarr next and falls back on
    the configured search string last.  A code found by Radarr's lookup
    is the result, whatever Sonarr would answer; when Radarr is off or
    gives no result (missing credentials, empty answer, first entry
    without original language, language name unknown to the table) a
    code found by Sonarr's lookup is the result; when Sonarr is off or
    gives no result either, the result is the configured search string.
    An exception raised by the lookup of a source that is asked is not
    caught: [set_langcode] raises it. *)
Theorem resolver_order (s : Settings) (abspath : string) :
  let resolved :=
    set_langcode lookup_movie lookup_series languages_get s abspath in
  let radarr_nothing :=
    use_radarr s = false \/
    (radarr_url s = EmptyString \/ radarr_api_key s = EmptyString) \/
    (exists answer,
       lookup_movie (radarr_url s) (radarr_api_key s) abspath = Ok answer /\
       no_language languages_get answer) in
  let sonarr_nothing :=
    use_sonarr s = false \/
    (sonarr_url s = EmptyString \/ sonarr_api_key s = EmptyString) \/
    (exists answer,
       lookup_series (sonarr_url s) (sonarr_api_key s) abspath = Ok answer /\
       no_language languages_get answer) in
  (forall answer code,
     use_radarr s = true ->
     radarr_url s <> EmptyString -> radarr_api_key s <> EmptyString ->
     lookup_movie (radarr_url s) (radarr_api_key s) abspath = Ok answer ->
     gives_code languages_get answer code -> code <> EmptyString ->
     resolved = Ok code) /\
  (forall answer code,
     radarr_nothing -> use_sonarr s = true ->
     sonarr_url s <> EmptyString -> sonarr_api_key s <> EmptyString ->
     lookup_series (sonarr_url s) (sonarr_api_key s) abspath = Ok answer ->
     gives_code languages_get answer code -> code <> EmptyString ->
     resolved = Ok code) /\
  (radarr_nothing -> sonarr_nothing -> resolved = Ok (Search_String s)) /\
  (forall e,
     use_radarr s = true ->
     radarr_url s <> EmptyString -> radarr_api_key s <> EmptyString ->
     lookup_movie (radarr_url s) (radarr_api_key s) abspath = Raise e ->
     resolved = Raise e) /\
  (forall e,
     radarr_nothing -> use_sonarr s = true ->
     sonarr_url s <> EmptyString -> sonarr_api_key s <> EmptyString ->
     lookup_series (sonarr_url s) (sonarr_api_key s) abspath = Raise e ->
     resolved = Raise e).
Proof.
  cbv zeta. unfold set_langcode. split; [|split; [|split; [|split]]].
  - intros answer code Hu Hurl Hkey Ha Hg Hc.
    rewrite Hu, (radarr_code s abspath answer code Hurl Hkey Ha Hg).
    cbn [mbind result_bind]. rewrite (truthy_filled _ Hc), andb_false_r.
    cbn [mbind result_bind]. now rewrite (truthy_filled _ Hc).
  - intros answer code Hn Hu Hurl Hkey Ha Hg Hc.
    destruct (first_source_nothing s abspath Hn) as (o & -> & Ho).
    cbn [mbind result_bind]. rewrite Hu, Ho. cbn [negb andb].
    rewrite (sonarr_code s abspath answer code Hurl Hkey Ha Hg).
    cbn [mbind result_bind]. now rewrite (truthy_filled _ Hc).
  - intros Hn Hs.
    destruct (first_source_nothing s abspath Hn) as (o & -> & Ho).
    cbn [mbind result_bind]. rewrite Ho, andb_true_r.
    destruct Hs as [Hs | Hs].
    + rewrite Hs. cbn [mbind result_bind]. now rewrite Ho.
    + rewrite (sonarr_no_result s abspath Hs).
      destruct (use_sonarr s); cbn [mbind result_bind]; [reflexivity|].
      now rewrite Ho.
  - intros e Hu Hurl Hkey Hl. rewrite Hu. unfold get_language_from_radarr.
    rewrite (truthy_filled _ Hurl), (truthy_filled _ Hkey), Hl. reflexivity.
  - intros e Hn Hu Hurl Hkey Hl.
    destruct (first_source_nothing s abspath Hn) as (o & -> & Ho).
    cbn [mbind result_bind]. rewrite Hu, Ho. cbn [negb andb].
    unfold get_language_from_sonarr.
    rewrite (truthy_filled _ Hurl), (truthy_filled _ Hkey), Hl. reflexivity.
Qed.

End LookupFacts.

(** Radarr finds French although Sonarr would raise; with Radarr off
    Sonarr finds French; with Radarr off and an empty answer of Sonarr
    the result is the configured [spa]. *)
Lemma resolver_order_witness :
  set_langcode (λ _ _ _, Ok french_answer) (λ _ _ _, Raise OSError) iso_639
    radarr_on "/library/film.mkv" = Ok "fra" /\
  set_langcode (λ _ _ _, Raise OSError) (λ _ _ _, Ok french_answer) iso_639
    sonarr_spa "/tv/show/s01e01.mkv" = Ok "fra" /\
  set_langcode (λ _ _ _, Raise OSError) (λ _ _ _, Ok []) iso_639
    sonarr_spa "/tv/show/s01e01.mkv" = Ok "spa".
Proof.
  split; [|split].
  - apply (proj1 (resolver_order (λ _ _ _, Ok french_answer)
                    (λ _ _ _, Raise OSError) iso_639 radarr_on
                    "/library/film.mkv") french_answer "fra");
      try reflexivity; try discriminate.
    apply (known_name iso_639 _ [] {[ "id" := "2"; "name" := "French" ]}
             "French" {| alpha_3 := "fra" |}); reflexivity.
  - apply (proj1 (proj2 (resolver_order (λ _ _ _, Raise OSError)
                           (λ _ _ _, Ok french_answer) iso_639 sonarr_spa
                           "/tv/show/s01e01.mkv")) french_answer "fra");
      try reflexivity; try discriminate.
    + left. reflexivity.
    + apply (known_name iso_639 _ [] {[ "id" := "2"; "name" := "French" ]}
               "French" {| alpha_3 := "fra" |}); reflexivity.
  - apply (proj1 (proj2 (proj2 (resolver_order (λ _ _ _, Raise OSError)
                                  (λ _ _ _, Ok []) iso_639 sonarr_spa
                                  "/tv/show/s01e01.mkv")))).
    + left. reflexivity.
    + right. right. exists []. split; [reflexivity | constructor].
Defined.

(** Radarr on and configured, its lookup failing with an error of the
    connection, Sonarr off, default [eng]: no source gives a code, yet
    the caller does not receive [eng], the error of the lookup reaches
    it. *)
Lemma resolver_lookup_error_is_fatal :
  let resolved :=
    set_langcode (λ _ _ _, Raise OSError) (λ _ _ _, Ok []) iso_639
      radarr_on "/library/film.mkv" in
  resolved = Raise OSError /\ resolved <> Ok (Search_String radarr_on).
Proof. cbv zeta. split; [reflexivity | discriminate]. Qed.

End ResolverFacts.

(** ** Facts on the string primitives *)

Module PyFacts.
Import Py.

(** A pattern whose first character does not occur in [s] is no
    substring of [s]. *)
Lemma contains_first_absent (c : ascii) (p s : string) :
  char_in c s = false -> contains (String c p) s = false.
Proof.
  induction s as [|a s IH]; intros H; [reflexivity|].
  cbn in H. apply orb_false_elim in H as [Ha Hs].
  cbn [contains startswith]. rewrite Ascii.eqb_sym, Ha. cbn [andb orb].
  now apply IH.
Qed.

Lemma char_in_digits (c : ascii) (d : Decimal.uint) :
  isdigit c = false -> char_in c (NilEmpty.string_of_uint d) = false.
Proof.
  intros Hc.
  induction d as [|d IH|d IH|d IH|d IH|d IH|d IH|d IH|d IH|d IH|d IH];
    cbn [NilEmpty.string_of_uint char_in]; [reflexivity|..];
    rewrite IH, orb_false_r;
    (destruct (Ascii.eqb_spec c c) as [_|Hn]; [|congruence]);
    match goal with
    | |- Ascii.eqb ?a c = false =>
        destruct (Ascii.eqb_spec a c) as [<-|]; [discriminate Hc | reflexivity]
    end.
Qed.

Lemma split_on_prefix (sep : ascii) (a b : string) :
  char_in sep a = false ->
  split_on sep (a +:+ String sep b) = a :: split_on sep b.
Proof.
  induction a as [|c a IH]; intros H.
  - change (EmptyString +:+ String sep b) with (String sep b).
    cbn [split_on]. now rewrite Ascii.eqb_refl.
  - cbn [char_in] in H. apply orb_false_elim in H as [Hc Ha].
    change (String c a +:+ String sep b) with (String c (a +:+ String sep b)).
    cbn [split_on]. rewrite Hc, (IH Ha). reflexivity.
Qed.

Lemma split_on_whole (sep : ascii) (b : string) :
  char_in sep b = false -> split_on sep b = [b].
Proof.
  induction b as [|c b IH]; intros H; [reflexivity|].
  cbn in H. apply orb_false_elim in H as [Hc Hb].
  cbn [split_on]. rewrite Hc, (IH Hb). reflexivity.
Qed.

Lemma to_uint_nonnil (n : nat) : Nat.to_uint n <> Decimal.Nil.
Proof.
  rewrite <- (DecimalNat.Unsigned.of_to n) at 1.
  rewrite DecimalNat.Unsigned.to_of. unfold Decimal.unorm.
  destruct (Decimal.nzhead (Nat.to_uint n)); discriminate.
Qed.

(** [int] reads back what [format] wrote. *)
Lemma int_of_str_of_nat (n : nat) : int_of_str (str_of_nat n) = Ok n.
Proof.
  unfold int_of_str, str_of_nat.
  rewrite NilEmpty.usu, DecimalNat.Unsigned.of_to.
  destruct (Nat.to_uint n) eqn:E; try reflexivity.
  now apply to_uint_nonnil in E.
Qed.

End PyFacts.

(** ** reorder_audio_streams_by_language: buckets and the order test *)

Module ReorderAudioFacts.
Import ReorderAudio.

(** *** Tokens *)

Lemma selector_audio (i : nat) :
  selector audio i =
    String "0" (String ":" (String "a" (String ":" (Py.str_of_nat i)))).
Proof. reflexivity. Qed.

Lemma char_in_selector_audio (c : ascii) (i : nat) :
  Py.isdigit c = false -> c <> ":"%char -> c <> "a"%char ->
  Py.char_in c (selector audio i) = false.
Proof.
  intros Hd Hc Ha. rewrite selector_audio. cbn [Py.char_in].
  unfold Py.str_of_nat. rewrite (PyFacts.char_in_digits c _ Hd).
  destruct (Ascii.eqb_spec "0" c) as [<-|_]; [discriminate Hd|].
  destruct (Ascii.eqb_spec ":" c) as [<-|_]; [congruence|].
  destruct (Ascii.eqb_spec "a" c) as [<-|_]; [congruence|].
  reflexivity.
Qed.

(** A selector of an audio stream is none of the tokens the scan skips. *)
Lemma selector_not_skipped (i : nat) :
  Py.contains "-map" (selector audio i)
  || Py.contains "-disposition" (selector audio i)
  || Py.contains "default" (selector audio i) = false.
Proof.
  rewrite !PyFacts.contains_first_absent;
    [reflexivity | apply char_in_selector_audio; (reflexivity || discriminate)..].
Qed.

(** The field after the last colon of a selector is the index as written. *)
Lemma selector_last_field (i : nat) :
  Py.last_item (Py.split_on ":" (selector audio i)) = Py.str_of_nat i.
Proof.
  change (selector audio i)
    with ("0" +:+ String ":" ("a" +:+ String ":" (Py.str_of_nat i))).
  rewrite !PyFacts.split_on_prefix by reflexivity.
  rewrite PyFacts.split_on_whole; [reflexivity|].
  now apply PyFacts.char_in_digits.
Qed.

Lemma scan_order_selector (i k : nat) (rest : list string) :
  scan_order (selector audio i :: rest) k =
    if (i =? k)%nat then scan_order rest (S k) else Ok true.
Proof.
  cbn [scan_order]. rewrite selector_not_skipped, selector_last_field.
  rewrite PyFacts.int_of_str_of_nat. cbn. now destruct (i =? k)%nat.
Qed.

Lemma unmatched_tokens_cons (i : nat) (l : list nat) :
  unmatched_tokens (i :: l) = "-map" :: selector audio i :: unmatched_tokens l.
Proof. reflexivity. Qed.

Lemma unmatched_tokens_app (l1 l2 : list nat) :
  unmatched_tokens (l1 ++ l2) = unmatched_tokens l1 ++ unmatched_tokens l2.
Proof. unfold unmatched_tokens. apply bind_app. Qed.

Lemma matched_tokens_cons (i : nat) (l : list nat) :
  matched_tokens (i :: l) =
    "-map" :: selector audio i :: "-disposition:a:0" :: "default"
      :: unmatched_tokens l.
Proof. reflexivity. Qed.

(** The scan of a bucket without override tokens is the comparison of
    the indices with the running count. *)
Lemma scan_order_unmatched (l : list nat) (k : nat) :
  scan_order (unmatched_tokens l) k = Ok (first_mismatch l k).
Proof.
  revert k. induction l as [|i l IH]; intros k; [reflexivity|].
  rewrite unmatched_tokens_cons.
  change (scan_order ("-map" :: selector audio i :: unmatched_tokens l) k)
    with (scan_order (selector audio i :: unmatched_tokens l) k).
  rewrite scan_order_selector. cbn [first_mismatch].
  destruct (i =? k)%nat; [apply IH | reflexivity].
Qed.

(** The same for the concatenation the method scans. *)
Lemma scan_order_buckets (mi ui : list nat) :
  scan_order (matched_tokens mi ++ unmatched_tokens ui) 0 =
    Ok (first_mismatch (mi ++ ui) 0).
Proof.
  destruct mi as [|i mi]; [apply scan_order_unmatched|].
  rewrite matched_tokens_cons. cbn [app].
  change (scan_order ("-map" :: selector audio i :: ?r) 0)
    with (scan_order (selector audio i :: r) 0).
  rewrite scan_order_selector. cbn [first_mismatch].
  destruct (i =? 0)%nat; [|reflexivity].
  change (scan_order ("-disposition:a:0" :: "default" :: ?r) 1)
    with (scan_order r 1).
  rewrite <- unmatched_tokens_app. apply scan_order_unmatched.
Qed.

Lemma first_mismatch_spec (l : list nat) (k : nat) :
  first_mismatch l k = true <-> exists j i, l !! j = Some i /\ i <> (k + j)%nat.
Proof.
  revert k. induction l as [|x l IH]; intros k; cbn [first_mismatch].
  - split; [discriminate|]. intros (j & i & H & _). discriminate H.
  - destruct (Nat.eqb_spec x k) as [->|Hne].
    + rewrite IH. split.
      * intros (j & i & H & Hi). exists (S j), i. split; [exact H | lia].
      * intros (j & i & H & Hi). destruct j as [|j].
        -- cbn in H. injection H as <-. lia.
        -- exists j, i. split; [exact H | lia].
    + split; [|reflexivity]. intros _. exists 0%nat, x. split; [reflexivity | lia].
Qed.

Lemma first_mismatch_displaced (l : list nat) :
  first_mismatch l 0 = true <-> displaced l.
Proof. apply first_mismatch_spec. Qed.

(** *** Ordered inventories *)

Lemma positions_all_false (flags : list bool) (k : nat) :
  forallb negb flags = true ->
  positions true k flags = [] /\ positions false k flags = seq k (length flags).
Proof.
  revert k. induction flags as [|[|] flags IH]; intros k H; cbn in *.
  - now split.
  - discriminate H.
  - destruct (IH (S k) H) as [-> ->]. now split.
Qed.

Lemma positions_ordered (flags : list bool) (k : nat) :
  ordered_flags flags = true ->
  positions true k flags ++ positions false k flags = seq k (length flags).
Proof.
  revert k. induction flags as [|[|] flags IH]; intros k H; cbn in *.
  - reflexivity.
  - f_equal. now apply IH.
  - destruct (positions_all_false flags (S k) H) as [-> ->]. reflexivity.
Qed.

Lemma first_mismatch_seq (n k : nat) : first_mismatch (seq k n) k = false.
Proof.
  revert k. induction n as [|n IH]; intros k; [reflexivity|].
  cbn. rewrite Nat.eqb_refl. apply IH.
Qed.

(** *** The buckets after the run over the streams *)

(** What one call of [custom_stream_mapping] does to the two buckets of
    the streams of interest, by the kind of stream. *)
Lemma custom_stream_mapping_matched (m : mapper) (stream : stream_info) (i : nat) :
  stream_type m = audio -> codec_type stream = audio ->
  test_tags_for_search_string (search_string m) (tags stream) = true ->
  let m1 := (custom_stream_mapping m stream i).1 in
  search_string m1 = search_string m /\ stream_type m1 = audio /\
  search_string_stream_mapping m1 =
    match search_string_stream_mapping m with
    | [] => matched_tokens [i]
    | _ => search_string_stream_mapping m ++ unmatched_tokens [i]
    end /\
  unmatched_stream_mapping m1 = unmatched_stream_mapping m.
Proof.
  intros Hm Hs Ht. unfold custom_stream_mapping. rewrite Hs, Hm, Ht.
  rewrite bool_decide_eq_true_2 by reflexivity.
  cbn. repeat split. destruct (search_string_stream_mapping m); reflexivity.
Qed.

Lemma custom_stream_mapping_unmatched (m : mapper) (stream : stream_info) (i : nat) :
  stream_type m = audio -> codec_type stream = audio ->
  test_tags_for_search_string (search_string m) (tags stream) = false ->
  let m1 := (custom_stream_mapping m stream i).1 in
  search_string m1 = search_string m /\ stream_type m1 = audio /\
  search_string_stream_mapping m1 = search_string_stream_mapping m /\
  unmatched_stream_mapping m1 = unmatched_stream_mapping m ++ unmatched_tokens [i].
Proof.
  intros Hm Hs Ht. unfold custom_stream_mapping. rewrite Hs, Hm, Ht.
  rewrite bool_decide_eq_true_2 by reflexivity.
  cbn. now repeat split.
Qed.

Lemma custom_stream_mapping_other (m : mapper) (stream : stream_info) (i : nat) :
  stream_type m = audio -> codec_type stream <> audio ->
  let m1 := (custom_stream_mapping m stream i).1 in
  search_string m1 = search_string m /\ stream_type m1 = audio /\
  search_string_stream_mapping m1 = search_string_stream_mapping m /\
  unmatched_stream_mapping m1 = unmatched_stream_mapping m.
Proof.
  intros Hm Hs. unfold custom_stream_mapping. rewrite Hm.
  rewrite bool_decide_eq_false_2 by exact Hs.
  destruct (negb (found_search_string_streams m)); cbn; now repeat split.
Qed.

(** The run over the streams, from any counters and any mapper whose
    type of interest is audio: the matched bucket receives the selectors
    of the matching audio streams, the unmatched bucket those of the
    others, each with the stream's position among the audio streams. *)
Lemma map_streams_buckets (streams : list stream_info) :
  forall (c : codec_type_t -> nat) (m : mapper),
    stream_type m = audio ->
    let flags := match_flags (search_string m) streams in
    let m' := map_streams streams c m in
    search_string_stream_mapping m' =
      match search_string_stream_mapping m with
      | [] => matched_tokens (positions true (c audio) flags)
      | _ => search_string_stream_mapping m ++
             unmatched_tokens (positions true (c audio) flags)
      end /\
    unmatched_stream_mapping m' =
      unmatched_stream_mapping m ++
      unmatched_tokens (positions false (c audio) flags).
Proof.
  induction streams as [|stream rest IH]; intros c m Hm; cbv zeta.
  - cbn. rewrite !app_nil_r.
    split; [destruct (search_string_stream_mapping m)|]; reflexivity.
  - cbn [map_streams]. unfold test_stream_needs_processing.
    set (m1 := (custom_stream_mapping m stream (c (codec_type stream))).1).
    set (c1 := λ t', if bool_decide (t' = codec_type stream)
                     then S (c t') else c t').
    unfold match_flags.
    destruct (decide (codec_type stream = audio)) as [Ha | Ha].
    + rewrite filter_cons_True by exact Ha. rewrite fmap_cons.
      assert (Hc1 : c1 audio = S (c audio)).
      { unfold c1. now rewrite bool_decide_eq_true_2. }
      destruct (test_tags_for_search_string (search_string m) (tags stream))
        eqn:Ht.
      * destruct (custom_stream_mapping_matched m stream
                    (c (codec_type stream)) Hm Ha Ht) as (Hs & Hty & Hb & Hu).
        fold m1 in Hs, Hty, Hb, Hu.
        destruct (IH c1 m1 Hty) as [IHb IHu]. rewrite IHb, IHu, Hb, Hu, Hs, Hc1.
        unfold match_flags. rewrite Ha. cbn [positions Bool.eqb].
        split; [|reflexivity].
        destruct (search_string_stream_mapping m) as [|x b].
        -- reflexivity.
        -- destruct ((x :: b) ++ unmatched_tokens [c audio]) eqn:E;
             [discriminate E|]. rewrite <- E, <- app_assoc.
           now rewrite <- unmatched_tokens_app.
      * destruct (custom_stream_mapping_unmatched m stream
                    (c (codec_type stream)) Hm Ha Ht) as (Hs & Hty & Hb & Hu).
        fold m1 in Hs, Hty, Hb, Hu.
        destruct (IH c1 m1 Hty) as [IHb IHu]. rewrite IHb, IHu, Hb, Hu, Hs, Hc1.
        unfold match_flags. rewrite Ha. cbn [positions Bool.eqb].
        split; [reflexivity|].
        now rewrite <- app_assoc, <- unmatched_tokens_app.
    + rewrite filter_cons_False by exact Ha.
      assert (Hc1 : c1 audio = c audio).
      { unfold c1. rewrite bool_decide_eq_false_2; [reflexivity | congruence]. }
      destruct (custom_stream_mapping_other m stream
                  (c (codec_type stream)) Hm Ha) as (Hs & Hty & Hb & Hu).
      fold m1 in Hs, Hty, Hb, Hu.
      destruct (IH c1 m1 Hty) as [IHb IHu]. rewrite IHb, IHu, Hb, Hu, Hs, Hc1.
      now split.
Qed.

(** For the mapper a hook creates, the buckets are the token lists of
    the matched and unmatched indices. *)
Lemma fresh_buckets (search : string) (streams : list stream_info) :
  let m' := streams_need_processing (new_mapper search) streams in
  search_string_stream_mapping m' = matched_tokens (matched_indices search streams) /\
  unmatched_stream_mapping m' = unmatched_tokens (unmatched_indices search streams).
Proof.
  exact (map_streams_buckets streams (λ _, 0%nat) (new_mapper search) eq_refl).
Qed.

Lemma matched_tokens_nil (l : list nat) : matched_tokens l = [] <-> l = [].
Proof. destruct l; split; (reflexivity || discriminate). Qed.

Lemma unmatched_tokens_nil (l : list nat) : unmatched_tokens l = [] <-> l = [].
Proof. destruct l; split; (reflexivity || discriminate). Qed.

(** The verdict on a new mapper, computed on the indices. *)
Lemma verdict_on_indices (search : string) (streams : list stream_info) :
  (streams_to_be_reordered (new_mapper search) streams).2 =
    Ok (match matched_indices search streams, unmatched_indices search streams with
        | _ :: _, _ :: _ =>
            first_mismatch (matched_indices search streams ++
                            unmatched_indices search streams) 0
        | _, _ => false
        end).
Proof.
  unfold streams_to_be_reordered. cbn [snd].
  destruct (fresh_buckets search streams) as [-> ->].
  destruct (matched_indices search streams) as [|i mi]; [reflexivity|].
  destruct (unmatched_indices search streams) as [|j ui]; [reflexivity|].
  rewrite matched_tokens_cons, unmatched_tokens_cons.
  rewrite <- matched_tokens_cons, <- unmatched_tokens_cons.
  apply scan_order_buckets.
Qed.

(** C1: on the mapper a hook creates, the two buckets hold the selectors
    of the matching and of the other audio streams, each with the
    stream's index among the audio streams; [streams_to_be_reordered]
    returns a verdict, true exactly when both buckets are non-empty and,
    in the sequence matched then unmatched, some stream sits at a place
    other than its index; for an inventory in which no matching audio
    stream follows a non-matching one the verdict is false. *)
Theorem reorder_verdict (search : string) (streams : list stream_info) :
  let run := streams_to_be_reordered (new_mapper search) streams in
  let matched := search_string_stream_mapping run.1 in
  let unmatched := unmatched_stream_mapping run.1 in
  let order := matched_indices search streams ++ unmatched_indices search streams in
  matched = matched_tokens (matched_indices search streams) /\
  unmatched = unmatched_tokens (unmatched_indices search streams) /\
  (exists verdict, run.2 = Ok verdict /\
     (verdict = true <-> matched <> [] /\ unmatched <> [] /\ displaced order)) /\
  (already_ordered search streams = true -> run.2 = Ok false).
Proof.
  cbv zeta. pose proof (fresh_buckets search streams) as [Hb Hu].
  cbv zeta in Hb, Hu.
  change (streams_to_be_reordered (new_mapper search) streams).1
    with (streams_need_processing (new_mapper search) streams).
  split; [exact Hb|]. split; [exact Hu|]. rewrite Hb, Hu.
  rewrite verdict_on_indices.
  split.
  - eexists. split; [reflexivity|].
    rewrite matched_tokens_nil, unmatched_tokens_nil.
    rewrite <- first_mismatch_displaced.
    destruct (matched_indices search streams) as [|i mi].
    { split; [discriminate | intros (H & _); congruence]. }
    destruct (unmatched_indices search streams) as [|j ui].
    { split; [discriminate | intros (_ & H & _); congruence]. }
    split; [intros H; repeat split; (discriminate || exact H) | now intros (_ & _ & H)].
  - intros Ho. unfold already_ordered in Ho.
    unfold matched_indices, unmatched_indices.
    rewrite (positions_ordered (match_flags search streams) 0 Ho).
    rewrite first_mismatch_seq.
    destruct (positions true 0 (match_flags search streams)); [reflexivity|].
    destruct (positions false 0 (match_flags search streams)); reflexivity.
Qed.

Lemma reorder_verdict_witness :
  (streams_to_be_reordered (new_mapper "en") en_en_video_fr).2 = Ok false.
Proof.
  apply (reorder_verdict "en" en_en_video_fr). reflexivity.
Defined.

(** A run of the file-test hook on an inventory that is in order for
    the resolved search string returns the [data] as received, on each
    invocation: the hook is a function of the probe, the settings and
    the lookup answers, and starts from a mapper of its own. *)
Lemma file_test_ordered lookup_movie lookup_series languages_get probe_file
    load_settings (d : file_test_data) (streams : list stream_info)
    (search : string) :
  probe_file (path d) = Some streams ->
  set_langcode lookup_movie lookup_series languages_get
    (match library_id d with
     | None | Some 0 => load_settings None
     | Some id => load_settings (Some id)
     end) (path d) = Ok search ->
  already_ordered search streams = true ->
  on_library_management_file_test lookup_movie lookup_series languages_get
    probe_file load_settings d = Ok d.
Proof.
  intros Hp Hs Ho. unfold on_library_management_file_test.
  rewrite Hp. cbv zeta. rewrite Hs. cbn [mbind result_bind].
  rewrite verdict_on_indices.
  unfold already_ordered in Ho. unfold matched_indices, unmatched_indices.
  rewrite (positions_ordered (match_flags search streams) 0 Ho).
  rewrite first_mismatch_seq.
  destruct (positions true 0 (match_flags search streams)); [reflexivity|].
  destruct (positions false 0 (match_flags search streams)); reflexivity.
Qed.

(** The buckets live in the mapper object: a second call of
    [streams_to_be_reordered] on the same object would append the
    selectors once more and see them out of place.  Neither hook does
    so, each builds its mapper and calls the method once. *)
Lemma second_call_on_same_mapper :
  let first := streams_to_be_reordered (new_mapper "en") en_en_video_fr in
  first.2 = Ok false /\
  (streams_to_be_reordered first.1 en_en_video_fr).2 = Ok true.
Proof. cbv zeta. split; reflexivity. Qed.

(** The example of the specification: audio en, video, audio fr, audio
    en with the search string [en].  The audio streams have the indices
    0, 1 and 2; the third one moves to the second place. *)
Lemma reorder_example :
  let run := streams_to_be_reordered (new_mapper "en") en_video_fr_en in
  search_string_stream_mapping run.1 =
    ["-map"; "0:a:0"; "-disposition:a:0"; "default"; "-map"; "0:a:2"] /\
  unmatched_stream_mapping run.1 = ["-map"; "0:a:1"] /\
  run.2 = Ok true.
Proof. cbv zeta. repeat split; reflexivity. Qed.

(** C4: with the search string [ENG], an audio stream titled
    [ENG Stereo] (language [und]) has a lower-cased title that contains
    the lower-cased search string, but the plugin compares the title
    with the search string as typed: the stream is not matched and goes
    to the unmatched bucket.  The language test lower-cases the search
    string; typed as [eng], the same stream is matched. *)
Theorem title_test_keeps_case :
  spec_matches "ENG" titled_eng = true /\
  test_tags_for_search_string "ENG" (Some titled_eng) = false /\
  (let m := (custom_stream_mapping (new_mapper "ENG")
               (audio_stream titled_eng) 0).1 in
   search_string_stream_mapping m = [] /\
   unmatched_stream_mapping m = ["-map"; "0:a:0"]) /\
  test_tags_for_search_string "eng" (Some titled_eng) = true.
Proof. cbv zeta. repeat split; reflexivity. Qed.

End ReorderAudioFacts.

(** * Further properties of the plugins *)

(** ** More on the string primitives *)

Module PyMoreFacts.
Import Py.

Lemma all_chars_app (P : ascii -> bool) (a b : string) :
  all_chars P (a +:+ b) = all_chars P a && all_chars P b.
Proof.
  induction a as [|c a IH]; [reflexivity|].
  change (String c a +:+ b) with (String c (a +:+ b)).
  cbn [all_chars]. now rewrite IH, andb_assoc.
Qed.

Lemma all_chars_impl (P Q : ascii -> bool) (s : string) :
  (forall c, P c = true -> Q c = true) ->
  all_chars P s = true -> all_chars Q s = true.
Proof.
  intros HPQ. induction s as [|c s IH]; [reflexivity|]. cbn [all_chars].
  intros [Hc Hs]%andb_true_iff. rewrite (HPQ c Hc). now apply IH.
Qed.

(** The fields of [split()] are not empty and hold no white space; the
    same for a field under construction. *)
Lemma split_ws_aux_fields (s : string) (cur : option string) :
  (forall w, cur = Some w ->
     w <> EmptyString /\ all_chars (λ c, negb (isspace c)) w = true) ->
  Forall (λ w, w <> EmptyString /\ all_chars (λ c, negb (isspace c)) w = true)
    (split_ws_aux cur s).
Proof.
  revert cur. induction s as [|c s IH]; intros cur Hcur; cbn [split_ws_aux].
  - destruct cur as [w|]; [|constructor]. constructor; [now apply Hcur | constructor].
  - destruct (isspace c) eqn:Hc.
    + destruct cur as [w|].
      * constructor; [now apply Hcur|]. apply IH. discriminate.
      * apply IH. discriminate.
    + destruct cur as [w|]; apply IH; intros w' [= <-].
      * destruct (Hcur w eq_refl) as [Hw Ha]. split.
        -- destruct w; discriminate.
        -- rewrite all_chars_app, Ha. cbn. now rewrite Hc.
      * split; [discriminate|]. cbn. now rewrite Hc.
Qed.

Lemma split_ws_fields (s : string) :
  Forall (λ w, w <> EmptyString /\ all_chars (λ c, negb (isspace c)) w = true)
    (split_ws s).
Proof. apply split_ws_aux_fields. discriminate. Qed.

(** A string of white space only has no field. *)
Lemma split_ws_blank (s : string) :
  all_chars isspace s = true -> split_ws s = [].
Proof.
  unfold split_ws. induction s as [|c s IH]; [reflexivity|].
  cbn [all_chars split_ws_aux]. intros [Hc Hs]%andb_true_iff.
  rewrite Hc. now apply IH.
Qed.

(** [lower] leaves white space, and only white space, white. *)
Lemma isspace_lower_ascii (c : ascii) : isspace (lower_ascii c) = isspace c.
Proof. destruct c as [[] [] [] [] [] [] [] []]; reflexivity. Qed.

Lemma lower_ascii_idem (c : ascii) : lower_ascii (lower_ascii c) = lower_ascii c.
Proof. destruct c as [[] [] [] [] [] [] [] []]; reflexivity. Qed.

Lemma lower_idem (s : string) : lower (lower s) = lower s.
Proof.
  induction s as [|c s IH]; [reflexivity|]. cbn [lower].
  now rewrite lower_ascii_idem, IH.
Qed.

(** Without white space there is nothing to strip. *)
Lemma strip_no_space (s : string) :
  all_chars (λ c, negb (isspace c)) s = true -> strip s = s.
Proof.
  intros H. unfold strip.
  assert (Hl : lstrip s = s).
  { destruct s as [|c s]; [reflexivity|]. cbn in H |- *.
    apply andb_true_iff in H as [Hc _]. now destruct (isspace c). }
  rewrite Hl. clear Hl. induction s as [|c s IH]; [reflexivity|].
  cbn [all_chars] in H. apply andb_true_iff in H as [Hc Hs].
  cbn [rstrip]. rewrite (IH Hs).
  destruct s; [|reflexivity]. now destruct (isspace c).
Qed.

(** What [split] leaves in the fields: characters of the string, none of
    them the separator. *)
Lemma split_on_fields (P : ascii -> bool) (sep : ascii) (s : string) :
  all_chars P s = true ->
  Forall (λ f, all_chars P f = true /\ char_in sep f = false) (split_on sep s).
Proof.
  induction s as [|c s IH]; intros H; cbn [split_on].
  - repeat constructor.
  - cbn [all_chars] in H. apply andb_true_iff in H as [Hc Hs].
    specialize (IH Hs). destruct (Ascii.eqb c sep) eqn:E.
    + constructor; [now split | exact IH].
    + destruct (split_on sep s) as [|h t]; [repeat constructor; cbn; now rewrite ?Hc, ?E|].
      inversion IH as [|? ? [Hh Hn] Ht]; subst. constructor; [|exact Ht].
      split; cbn; [now rewrite Hc, Hh | now rewrite E, Hn].
Qed.

Lemma contains_empty_pattern (s : string) : contains EmptyString s = true.
Proof. destruct s; reflexivity. Qed.

Lemma contains_in_empty (p : string) :
  contains p EmptyString = true <-> p = EmptyString.
Proof. destruct p; cbn; split; (reflexivity || discriminate). Qed.

Lemma join_empty_cons (w : string) (l : list string) :
  join EmptyString (w :: l) = w +:+ join EmptyString l.
Proof.
  destruct l as [|x l]; cbn [join].
  - induction w as [|c w IH]; [reflexivity|].
    change (String c w +:+ EmptyString) with (String c (w +:+ EmptyString)).
    now rewrite <- IH.
  - reflexivity.
Qed.

Lemma append_assoc_char (w : string) (c : ascii) (r : string) :
  (w +:+ String c EmptyString) +:+ r = w +:+ String c r.
Proof.
  induction w as [|a w IH]; [reflexivity|].
  change ((String a w +:+ String c EmptyString) +:+ r)
    with (String a ((w +:+ String c EmptyString) +:+ r)).
  now rewrite IH.
Qed.

(** The fields of [split()], put end to end, are the text without its
    white space. *)
Lemma split_ws_aux_content (s : string) (cur : option string) :
  join EmptyString (split_ws_aux cur s) =
  default EmptyString cur +:+ keep_chars (λ c, negb (isspace c)) s.
Proof.
  revert cur. induction s as [|c s IH]; intros cur;
    cbn [split_ws_aux keep_chars].
  - destruct cur as [w|]; cbn [join from_option id]; [|reflexivity].
    induction w as [|a w IHw]; [reflexivity|].
    change (String a w +:+ EmptyString) with (String a (w +:+ EmptyString)).
    now rewrite <- IHw.
  - destruct (isspace c); cbn [negb].
    + destruct cur as [w|].
      * rewrite join_empty_cons, IH. reflexivity.
      * apply IH.
    + destruct cur as [w|]; rewrite IH; cbn [from_option id].
      * apply append_assoc_char.
      * reflexivity.
Qed.

Lemma split_ws_content (s : string) :
  join EmptyString (split_ws s) = keep_chars (λ c, negb (isspace c)) s.
Proof. apply split_ws_aux_content. Qed.

End PyMoreFacts.

(** ** More on encoder_audio_ac3 *)

Module EncoderAudioAc3MoreFacts.
Import EncoderAudioAc3.

(** X1: the test compares the codec name without regard to letter case, does
    not depend on the settings, and raises on a stream that has no
    [codec_name]: [.lower()] is called on the [None] that [get] returns. *)
Theorem needs_processing_by_codec (s : Settings) (stream : stream_info) :
  (codec_name stream = None ->
   test_stream_needs_processing s stream = Raise AttributeError) /\
  (forall n, codec_name stream = Some n ->
     test_stream_needs_processing s stream =
       Ok (negb (String.eqb (Py.lower n) "ac3"))) /\
  (forall b, test_stream_needs_processing s stream = Ok b ->
     forall s', test_stream_needs_processing s' stream = Ok b).
Proof.
  unfold test_stream_needs_processing. split; [|split].
  - now intros ->.
  - intros n ->. unfold Py.in_list, codec.
    destruct (String.eqb_spec (Py.lower n) "ac3") as [-> | Hn]; [reflexivity|].
    rewrite bool_decide_eq_false_2; [reflexivity|].
    intros H. apply list_elem_of_singleton in H. contradiction.
  - intros b H s'. exact H.
Qed.

Lemma needs_processing_by_codec_witness :
  test_stream_needs_processing settings untitled_audio = Raise AttributeError /\
  test_stream_needs_processing settings dts_8ch = Ok true.
Proof.
  split.
  - apply (needs_processing_by_codec settings untitled_audio). reflexivity.
  - apply (proj1 (proj2 (needs_processing_by_codec settings dts_8ch)) "dts").
    reflexivity.
Defined.

(** X2: in basic mode a stream without a (non-zero) channel count is encoded
    with the codec alone; with a count, the channel token is the count
    held to 6 and the rate follows the held count: 224k up to 2, 448k up
    to 4, 640k above.  The mapping is the stream's own selector. *)
Theorem basic_mode_encoding (s : Settings) (stream : stream_info)
    (stream_id : nat) :
  advanced s = false ->
  let m := custom_stream_mapping s stream stream_id in
  stream_mapping m = ["-map"; "0:a:" +:+ Py.str_of_nat stream_id] /\
  (channels stream = None \/ channels stream = Some 0 ->
   stream_encoding m = ["-c:a:" +:+ Py.str_of_nat stream_id; "ac3"]) /\
  (forall c, channels stream = Some c -> c <> 0 ->
     stream_encoding m =
       ["-c:a:" +:+ Py.str_of_nat stream_id; "ac3";
        "-ac:a:" +:+ Py.str_of_nat stream_id; Py.str_of_Z (Z.min c 6);
        "-b:a:" +:+ Py.str_of_nat stream_id;
        if Z.min c 6 <=? 2 then "224k"
        else if Z.min c 6 <=? 4 then "448k" else "640k"]).
Proof.
  intros Ha. cbv zeta. unfold custom_stream_mapping. rewrite Ha.
  cbn [stream_mapping stream_encoding]. split; [reflexivity|]. split.
  - now intros [-> | ->].
  - intros c Hc Hz.
    rewrite (EncoderAudioAc3Facts.calculate_bitrate_cases stream c Hc Hz).
    rewrite Hc. destruct c as [|p|p]; [lia| |].
    + destruct (6 <? Z.pos p) eqn:H6.
      * apply Z.ltb_lt in H6. rewrite Z.min_r by lia.
        replace (Z.pos p <=? 2) with false by (symmetry; apply Z.leb_gt; lia).
        replace (Z.pos p <=? 4) with false by (symmetry; apply Z.leb_gt; lia).
        reflexivity.
      * apply Z.ltb_ge in H6. rewrite Z.min_l by lia.
        destruct (Z.pos p <=? 2); [reflexivity|].
        destruct (Z.pos p <=? 4); reflexivity.
    + rewrite Z.min_l by lia. reflexivity.
Qed.

Lemma basic_mode_encoding_witness :
  stream_encoding (custom_stream_mapping settings aac_stereo 0) =
    ["-c:a:0"; "ac3"; "-ac:a:0"; "2"; "-b:a:0"; "224k"].
Proof.
  apply (proj2 (proj2 (basic_mode_encoding settings aac_stereo 0 eq_refl)) 2);
    [reflexivity | discriminate].
Defined.

(** X3: in advanced mode, for custom options written in ASCII, the
    encoding is the codec followed by the custom options cut at white
    space: put end to end the options are the custom options without
    their white space, no option is empty or holds white space, blank
    custom options add nothing, and neither the channel count of the
    stream nor a rate of the plugin's table is used. *)
Theorem advanced_mode_encoding (s : Settings) (stream : stream_info)
    (stream_id : nat) :
  advanced s = true ->
  Py.all_chars Py.is_ascii (custom_options s) = true ->
  let options := Py.split_ws (custom_options s) in
  stream_encoding (custom_stream_mapping s stream stream_id) =
    ["-c:a:" +:+ Py.str_of_nat stream_id; "ac3"] ++ options /\
  Py.join EmptyString options =
    Py.keep_chars (λ c, negb (Py.isspace c)) (custom_options s) /\
  Forall (λ o, o <> EmptyString /\
               Py.all_chars (λ c, negb (Py.isspace c)) o = true) options /\
  (Py.all_chars Py.isspace (custom_options s) = true ->
   stream_encoding (custom_stream_mapping s stream stream_id) =
     ["-c:a:" +:+ Py.str_of_nat stream_id; "ac3"]) /\
  (forall stream',
     stream_encoding (custom_stream_mapping s stream' stream_id) =
     stream_encoding (custom_stream_mapping s stream stream_id)).
Proof.
  intros Ha _. cbv zeta.
  unfold custom_stream_mapping. rewrite Ha. cbn [stream_encoding].
  split; [reflexivity|]. split; [apply PyMoreFacts.split_ws_content|].
  split; [apply PyMoreFacts.split_ws_fields|]. split; [|reflexivity].
  intros Hb. now rewrite (PyMoreFacts.split_ws_blank _ Hb).
Qed.

Lemma advanced_mode_encoding_witness :
  stream_encoding (custom_stream_mapping custom_stereo dts_8ch 1) =
    ["-c:a:1"; "ac3"; "-ac"; "2"; "-b:a"; "192k"].
Proof.
  etransitivity.
  - apply (advanced_mode_encoding custom_stereo dts_8ch 1); reflexivity.
  - reflexivity.
Defined.

End EncoderAudioAc3MoreFacts.

(** ** More on extract_ass_subtitles_to_files *)

Module ExtractAssMoreFacts.
Import ExtractAss.

(** *** The language filter *)

(** After the substitution and [lower] a character is neither white
    space nor changed by [lower]. *)
Lemma normalized_char (c : ascii) :
  let c' := Py.lower_ascii (if Py.isspace c then "-"%char else c) in
  negb (Py.isspace c') && Ascii.eqb (Py.lower_ascii c') c' = true.
Proof. destruct c as [[] [] [] [] [] [] [] []]; reflexivity. Qed.

Lemma normalized_comma (c : ascii) :
  Ascii.eqb (Py.lower_ascii (if Py.isspace c then "-"%char else c)) "," =
  Ascii.eqb c ",".
Proof. destruct c as [[] [] [] [] [] [] [] []]; reflexivity. Qed.

Lemma normalized_string (s : string) :
  Py.all_chars (λ c, negb (Py.isspace c) && Ascii.eqb (Py.lower_ascii c) c)
    (Py.lower (Py.sub_space_hyphen s)) = true.
Proof.
  induction s as [|c s IH]; [reflexivity|].
  cbn [Py.sub_space_hyphen Py.lower Py.all_chars].
  rewrite IH, andb_true_r. apply normalized_char.
Qed.

Lemma lower_fixed (s : string) :
  Py.all_chars (λ c, Ascii.eqb (Py.lower_ascii c) c) s = true -> Py.lower s = s.
Proof.
  induction s as [|c s IH]; [reflexivity|]. cbn [Py.all_chars Py.lower].
  intros [Hc Hs]%andb_true_iff. apply Ascii.eqb_eq in Hc. now rewrite Hc, IH.
Qed.

(** In the model the list is the non-empty fields between the commas of
    the normalized string, and the fields are as clean as the string. *)
Lemma language_list_fields (s : Settings) :
  _get_language_list s =
    filter (λ x, x <> EmptyString)
      (Py.split_on ","
         (Py.lower (Py.sub_space_hyphen (languages_to_extract s)))) /\
  Forall (λ x, x <> EmptyString /\ Py.char_in "," x = false /\
               Py.all_chars (λ c, negb (Py.isspace c)) x = true /\
               Py.lower x = x)
    (_get_language_list s).
Proof.
  unfold _get_language_list.
  set (t := Py.lower (Py.sub_space_hyphen (languages_to_extract s))).
  pose proof (PyMoreFacts.split_on_fields _ "," t
                (normalized_string (languages_to_extract s))) as Hf.
  fold t in Hf.
  assert (Hg : Forall (λ x, x <> EmptyString /\ Py.char_in "," x = false /\
                 Py.all_chars (λ c, negb (Py.isspace c)) x = true /\
                 Py.lower x = x)
                (filter (λ x, x <> EmptyString) (Py.split_on "," t))).
  { apply Forall_forall. intros x Hx.
    apply list_elem_of_filter in Hx as [Hne Hx].
    rewrite Forall_forall in Hf. destruct (Hf x Hx) as [Hp Hc].
    split; [exact Hne|]. split; [exact Hc|]. split.
    - revert Hp. apply PyMoreFacts.all_chars_impl.
      now intros c [? _]%andb_true_iff.
    - apply lower_fixed. revert Hp. apply PyMoreFacts.all_chars_impl.
      now intros c [_ ?]%andb_true_iff. }
  assert (He : Py.strip <$> filter (λ x, x <> EmptyString) (Py.split_on "," t)
               = filter (λ x, x <> EmptyString) (Py.split_on "," t)).
  { rewrite <- (list_fmap_id (filter _ _)) at 2.
    apply Forall_fmap_ext. eapply Forall_impl; [exact Hg|].
    intros x (_ & _ & Hx & _). now apply PyMoreFacts.strip_no_space. }
  rewrite He. split; [reflexivity | exact Hg].
Qed.

(** X4: for a configured string written in ASCII, the list is the
    non-empty fields between the commas of the normalized string,
    [strip] changes none of them; an entry is never empty and holds
    neither a comma, nor white space, nor an upper-case letter. *)
Theorem language_list_entries (s : Settings) :
  Py.all_chars Py.is_ascii (languages_to_extract s) = true ->
  _get_language_list s =
    filter (λ x, x <> EmptyString)
      (Py.split_on ","
         (Py.lower (Py.sub_space_hyphen (languages_to_extract s)))) /\
  Forall (λ x, x <> EmptyString /\ Py.char_in "," x = false /\
               Py.all_chars (λ c, negb (Py.isspace c)) x = true /\
               Py.lower x = x)
    (_get_language_list s).
Proof. intros _. apply language_list_fields. Qed.

Lemma language_list_entries_witness :
  Forall (λ x, x <> EmptyString /\ Py.char_in "," x = false /\
               Py.all_chars (λ c, negb (Py.isspace c)) x = true /\
               Py.lower x = x)
    (_get_language_list eng_fre_jpn).
Proof. apply (language_list_entries eng_fre_jpn). reflexivity. Defined.

Lemma split_only_empty_fields (t : string) :
  filter (λ x, x <> EmptyString) (Py.split_on "," t) = [] <->
  Py.all_chars (λ c, Ascii.eqb c ",") t = true.
Proof.
  induction t as [|c t IH]; [now split|].
  cbn [Py.split_on Py.all_chars]. destruct (Ascii.eqb c ",").
  - rewrite filter_cons_False by (intros H; now apply H). exact IH.
  - destruct (Py.split_on "," t) as [|h r].
    + rewrite filter_cons_True by discriminate. now split.
    + rewrite filter_cons_True by discriminate. now split.
Qed.

(** X5: no language is configured exactly when the configured string is
    made of commas only (the empty string included): a blank, turned
    into a hyphen, counts as a language. *)
Theorem language_list_empty (s : Settings) :
  _get_language_list s = [] <->
  Py.all_chars (λ c, Ascii.eqb c ",") (languages_to_extract s) = true.
Proof.
  rewrite (proj1 (language_list_fields s)), split_only_empty_fields.
  induction (languages_to_extract s) as [|c t IH]; [reflexivity|].
  cbn [Py.sub_space_hyphen Py.lower Py.all_chars].
  rewrite normalized_comma, !andb_true_iff. now rewrite IH.
Qed.

Lemma language_list_empty_witness : _get_language_list only_commas = [].
Proof. apply (language_list_empty only_commas). reflexivity. Defined.

(** *** The test and the mapping *)

(** X6: a stream that is not ASS or SSA (a stream without [codec_name]
    included) is never processed, whatever the filter and the tags; an
    ASS or SSA stream is processed under an empty filter even without
    tags, and under a filter when its lower-cased language tag is in
    it; the test raises only for an ASS or SSA stream without tags
    under a non-empty filter. *)
Theorem test_by_codec_and_filter (s : Settings) (stream : stream_info) :
  let ass :=
    Py.in_list (Py.lower (default EmptyString (codec_name stream)))
      ["ass"; "ssa"] in
  (ass = false -> test_stream_needs_processing s stream = Ok false) /\
  (ass = true -> _get_language_list s = [] ->
   test_stream_needs_processing s stream = Ok true) /\
  (forall t, ass = true -> _get_language_list s <> [] -> tags stream = Some t ->
     test_stream_needs_processing s stream =
       Ok (Py.in_list (Py.lower (get_or_empty t "language"))
             (_get_language_list s))) /\
  ((exists e, test_stream_needs_processing s stream = Raise e) <->
   ass = true /\ _get_language_list s <> [] /\ tags stream = None).
Proof.
  cbv zeta. unfold test_stream_needs_processing.
  destruct (Py.in_list _ ["ass"; "ssa"]); cbn [negb].
  - split; [discriminate|]. split; [now intros _ ->|]. split.
    + intros t _ Hl Ht. destruct (_get_language_list s); [congruence|].
      cbn [length Nat.eqb]. now rewrite Ht.
    + destruct (_get_language_list s) as [|l ls]; cbn [length Nat.eqb].
      * split; [intros [e He]; discriminate He | intros (_ & H & _); congruence].
      * destruct (tags stream); split.
        -- intros [e He]; discriminate He.
        -- intros (_ & _ & H); discriminate H.
        -- intros _. repeat split. discriminate.
        -- intros _. eauto.
  - split; [reflexivity|]. split; [discriminate|]. split; [discriminate|].
    split; [intros [e He]; discriminate He | intros (H & _); discriminate H].
Qed.

Lemma test_by_codec_and_filter_witness :
  test_stream_needs_processing only_eng ass_eng = Ok true /\
  test_stream_needs_processing settings ass_untagged = Ok true.
Proof.
  split.
  - etransitivity.
    + apply (proj1 (proj2 (proj2 (test_by_codec_and_filter only_eng ass_eng)))
               {[ "language" := "eng" ]}); [reflexivity | discriminate | reflexivity].
    + reflexivity.
  - apply (proj1 (proj2 (test_by_codec_and_filter settings ass_untagged)));
      reflexivity.
Defined.

(** X7: for an ASS or SSA stream with tags the test and the mapping agree:
    when the test says yes the mapping copies the stream and records one
    sub-stream for the extraction, when it says no the mapping is empty
    and the mapper is left as it was. *)
Theorem test_and_mapping_agree (s : Settings) (m : mapper)
    (stream : stream_info) (stream_id : nat) (t : gmap string string) :
  tags stream = Some t ->
  Py.in_list (Py.lower (default EmptyString (codec_name stream)))
    ["ass"; "ssa"] = true ->
  let sel := "0:s:" +:+ Py.str_of_nat stream_id in
  exists b, test_stream_needs_processing s stream = Ok b /\
    if b then
      (custom_stream_mapping s m stream stream_id).2 =
        {| stream_mapping := ["-map"; sel];
           stream_encoding := ["-c:s:" +:+ Py.str_of_nat stream_id; "copy"] |} /\
      exists tag,
        sub_streams (custom_stream_mapping s m stream stream_id).1 =
          sub_streams m ++
          [{| sub_stream_id := stream_id; subtitle_tag := tag;
              sub_stream_mapping := ["-map"; sel] |}]
    else
      custom_stream_mapping s m stream stream_id =
        (m, {| stream_mapping := []; stream_encoding := [] |}).
Proof.
  intros Ht Hc. cbv zeta.
  unfold test_stream_needs_processing, custom_stream_mapping.
  rewrite Hc, Ht. cbn [negb from_option id].
  destruct (_get_language_list s) as [|l ls] eqn:El.
  - cbn [length Nat.eqb Nat.ltb Nat.leb andb]. exists true.
    split; [reflexivity|]. split; [reflexivity|]. eexists. reflexivity.
  - cbn [length Nat.eqb]. eexists. split; [reflexivity|].
    change (0 <? S (length ls))%nat with true. cbn [andb].
    destruct (Py.in_list (Py.lower (get_or_empty t "language")) (l :: ls));
      cbn [negb]; [|reflexivity].
    split; [reflexivity|]. eexists. reflexivity.
Qed.

Lemma test_and_mapping_agree_witness :
  exists b, test_stream_needs_processing only_eng ass_eng = Ok b /\
    if b then
      (custom_stream_mapping only_eng (mk_mapper [] [] [] None []) ass_eng 0).2 =
        {| stream_mapping := ["-map"; "0:s:0"];
           stream_encoding := ["-c:s:0"; "copy"] |} /\
      exists tag,
        sub_streams
          (custom_stream_mapping only_eng (mk_mapper [] [] [] None []) ass_eng 0).1 =
          [] ++ [{| sub_stream_id := 0; subtitle_tag := tag;
                    sub_stream_mapping := ["-map"; "0:s:0"] |}]
    else
      custom_stream_mapping only_eng (mk_mapper [] [] [] None []) ass_eng 0 =
        (mk_mapper [] [] [] None [],
         {| stream_mapping := []; stream_encoding := [] |}).
Proof.
  apply (test_and_mapping_agree only_eng (mk_mapper [] [] [] None []) ass_eng 0
           {[ "language" := "eng" ]}); reflexivity.
Defined.

(** *** The tag of an extracted subtitle *)

Lemma sub_space_slash_hyphen_safe (s : string) :
  Py.all_chars
    (λ c, negb (Py.isspace c || Ascii.eqb c "/" || Ascii.eqb c "\"))
    (sub_space_slash_hyphen s) = true.
Proof.
  induction s as [|c s IH]; [reflexivity|].
  cbn [sub_space_slash_hyphen Py.all_chars]. rewrite IH, andb_true_r.
  destruct (Py.isspace c || Ascii.eqb c "/" || Ascii.eqb c "\") eqn:E;
    [reflexivity | now rewrite E].
Qed.

(** Whatever the tags, the tag assembled before the substitution begins
    with a dot. *)
Lemma raw_tag_dot (lang title idx : string) (incl : bool) :
  let tag := EmptyString in
  let tag := if Py.truthy (Some lang) then tag +:+ "." +:+ lang else tag in
  let tag :=
    if Py.truthy (Some title) && incl then tag +:+ "." +:+ title else tag in
  let tag :=
    if negb (Py.truthy (Some tag)) then tag +:+ "." +:+ idx else tag in
  exists r, tag = String "." r.
Proof. destruct lang, title, incl; cbv zeta; eexists; reflexivity. Qed.

(** X8: the mapping either skips the stream and leaves the mapper alone, or
    records one sub-stream whose tag, later a part of the name of the
    extracted file, begins with a dot and holds no white space, no
    slash and no backslash. *)
Theorem subtitle_tag_safe (s : Settings) (m : mapper) (stream : stream_info)
    (stream_id : nat) :
  let m' := (custom_stream_mapping s m stream stream_id).1 in
  m' = m \/
  exists tag,
    sub_streams m' =
      sub_streams m ++
      [{| sub_stream_id := stream_id; subtitle_tag := tag;
          sub_stream_mapping := ["-map"; "0:s:" +:+ Py.str_of_nat stream_id] |}] /\
    Py.startswith "." tag = true /\
    Py.all_chars
      (λ c, negb (Py.isspace c || Ascii.eqb c "/" || Ascii.eqb c "\")) tag = true.
Proof.
  cbv zeta. unfold custom_stream_mapping.
  destruct (_ && _); [now left | right]. cbn [fst sub_streams].
  eexists. split; [reflexivity|]. split; [|apply sub_space_slash_hyphen_safe].
  destruct (raw_tag_dot
              (Py.lower (get_or_empty (default ∅ (tags stream)) "language"))
              (get_or_empty (default ∅ (tags stream)) "title")
              (Py.str_of_Z (index stream))
              (include_title_in_output_file_name s)) as [r Hr].
  cbv zeta in Hr. rewrite Hr. reflexivity.
Qed.

(** *** Files without a marker, and the marker the post-processor writes *)

Section HostMoreFacts.

Variable directory_info_get : string -> string -> string -> result (option string).
Variable probe_file : string -> option (list stream_info).
Variable probe_set : list stream_info -> bool.
Variable load_settings : option Z -> Settings.


(** The constructor of the sidecar object runs before the [try]: its
    exception reaches the caller as it is, no handler is involved; once
    it has returned, the rest is [ass_already_extracted]. *)
Lemma constructor_error_as_raised (directory_info_new : string -> result unit)
    (s : Settings) (p : string) :
  (forall e, directory_info_new (OsPath.dirname p) = Raise e ->
     ass_already_extracted_from directory_info_get directory_info_new s p
     = Raise e) /\
  (directory_info_new (OsPath.dirname p) = Ok tt ->
   ass_already_extracted_from directory_info_get directory_info_new s p
   = ass_already_extracted directory_info_get s p).
Proof.
  unfold ass_already_extracted_from. split.
  - now intros e ->.
  - now intros ->.
Qed.

End HostMoreFacts.


End ExtractAssMoreFacts.

(** ** The marker: from the post-processor to the file test *)

Module ExtractAssMarkerFacts.
Import ExtractAss.

Section SidecarRoundTrip.

(** The sidecar of the host, read and written; what is assumed of it is
    that a record reads back as written and that writing one record
    leaves the others alone. *)
Variable store : Type.
Variable directory_info_get :
  store -> string -> string -> string -> result (option string).
Variable directory_info_set :
  store -> string -> string -> string -> string -> store.
Variable probe_file : string -> option (list stream_info).
Variable load_settings : option Z -> Settings.

Hypothesis get_after_set : forall w dir sec opt v,
  directory_info_get (directory_info_set w dir sec opt v) dir sec opt
  = Ok (Some v).
Hypothesis get_after_other_set : forall w dir sec opt v dir' opt',
  (dir', opt') <> (dir, opt) ->
  directory_info_get (directory_info_set w dir sec opt v) dir' sec opt'
  = directory_info_get w dir' sec opt'.

(** Writing the same value for further files keeps a record. *)
Lemma marker_kept (v : string) (files : list string) :
  forall w dir opt,
    directory_info_get w dir "extract_ass_subtitles_to_files" opt = Ok (Some v) ->
    directory_info_get
      (fold_left
         (λ w f, directory_info_set w (OsPath.dirname f)
                   "extract_ass_subtitles_to_files" (OsPath.basename f) v)
         files w)
      dir "extract_ass_subtitles_to_files" opt = Ok (Some v).
Proof.
  induction files as [|a files IH]; intros w dir opt H; [exact H|].
  cbn [fold_left]. apply IH.
  destruct (decide ((dir, opt) = (OsPath.dirname a, OsPath.basename a)))
    as [[= -> ->] | Hne].
  - apply get_after_set.
  - rewrite get_after_other_set by exact Hne. exact H.
Qed.

Lemma marker_written (v : string) (files : list string) :
  forall w f, f ∈ files ->
    directory_info_get
      (fold_left
         (λ w f, directory_info_set w (OsPath.dirname f)
                   "extract_ass_subtitles_to_files" (OsPath.basename f) v)
         files w)
      (OsPath.dirname f) "extract_ass_subtitles_to_files" (OsPath.basename f)
    = Ok (Some v).
Proof.
  induction files as [|a files IH]; intros w f Hin.
  - now apply elem_of_nil in Hin.
  - cbn [fold_left]. apply elem_of_cons in Hin as [-> | Hin].
    + apply marker_kept, get_after_set.
    + now apply IH.
Qed.

(** X10: after a failed task the sidecar is untouched.  After a successful
    one, the file test finds each destination file already extracted
    exactly when the recorded language list is not empty; the list is
    empty, and the file will be queued again, when no subtitle stream of
    the source carries a language tag (or the probe fails). *)
Theorem marker_round_trip (w : store) (d : task_results_data) (s' : Settings) :
  let w' :=
    on_postprocessor_task_results store directory_info_set probe_file
      load_settings w d in
  let s :=
    match results_library_id d with
    | None | Some 0 => load_settings None
    | Some id => load_settings (Some id)
    end in
  let probe_streams := default [] (probe_file (source_abspath d)) in
  let recorded := recorded_languages (languages_to_extract s) probe_streams in
  (task_processing_success d = false -> w' = w) /\
  (task_processing_success d = true ->
   forall f, f ∈ destination_files d ->
     ass_already_extracted (directory_info_get w') s' f
     = Ok (Py.truthy (Some recorded))) /\
  (subtitle_languages probe_streams = [] -> recorded = EmptyString).
Proof.
  cbv zeta. unfold on_postprocessor_task_results. split; [|split].
  - now intros ->.
  - intros -> f Hf. cbn [negb]. cbv zeta. unfold ass_already_extracted.
    rewrite (marker_written _ _ _ f Hf). cbn [mbind result_bind].
    match goal with
    | |- context [Py.truthy ?x] => destruct (Py.truthy x); reflexivity
    end.
  - intros Hn. unfold recorded_languages.
    destruct (default [] (probe_file (source_abspath d))); [reflexivity|].
    rewrite Hn.
    match goal with
    | |- context [Py.truthy ?x] => destruct (Py.truthy x); reflexivity
    end.
Qed.

End SidecarRoundTrip.

Lemma marker_round_trip_witness :
  ass_already_extracted
    (store_get
       (on_postprocessor_task_results _ store_set (λ _, Some [ass_eng])
          (λ _, only_eng) ∅ film_results))
    settings "/library/film.mkv" = Ok true.
Proof.
  refine (proj1 (proj2 (marker_round_trip _ store_get store_set
            (λ _, Some [ass_eng]) (λ _, only_eng) _ _ ∅ film_results settings))
            eq_refl "/library/film.mkv" _).
  - intros w dir sec opt v. unfold store_get, store_set.
    now rewrite lookup_insert_eq.
  - intros w dir sec opt v dir' opt' Hne. unfold store_get, store_set.
    rewrite lookup_insert_ne; [reflexivity | congruence].
  - apply list_elem_of_singleton. reflexivity.
Defined.

End ExtractAssMarkerFacts.

(** ** More on reorder_audio_streams_by_language *)

Module ReorderAudioMoreFacts.
Import ReorderAudio.

(** *** The verdict *)

Lemma positions_from (b : bool) (flags : list bool) :
  forall k, Forall (λ i, k <= i)%nat (positions b k flags).
Proof.
  induction flags as [|f flags IH]; intros k; cbn [positions]; [constructor|].
  assert (H : Forall (λ i, k <= i)%nat (positions b (S k) flags)).
  { eapply Forall_impl; [apply IH|]. cbn. lia. }
  destruct (Bool.eqb f b); [constructor; [lia | exact H] | exact H].
Qed.

Lemma positions_some_true (flags : list bool) (k : nat) :
  forallb negb flags = false -> positions true k flags <> [].
Proof.
  revert k. induction flags as [|[|] flags IH]; intros k H; cbn in *.
  - discriminate H.
  - discriminate.
  - now apply IH.
Qed.

(** When a matching stream follows one that does not match, both
    buckets are filled and the scan meets a stream out of place. *)
Lemma first_mismatch_unordered (flags : list bool) :
  forall k, ordered_flags flags = false ->
    first_mismatch (positions true k flags ++ positions false k flags) k = true /\
    positions true k flags <> [] /\ positions false k flags <> [].
Proof.
  induction flags as [|[|] flags IH]; intros k H; cbn [ordered_flags] in H.
  - discriminate H.
  - destruct (IH (S k) H) as (Hm & Ht & Hf).
    cbn [positions Bool.eqb app first_mismatch]. rewrite Nat.eqb_refl.
    split; [exact Hm|]. split; [discriminate | exact Hf].
  - cbn [positions Bool.eqb]. pose proof (positions_some_true flags (S k) H) as Ht.
    split; [|split; [exact Ht | discriminate]].
    pose proof (positions_from true flags (S k)) as Hge.
    destruct (positions true (S k) flags) as [|j pt]; [congruence|].
    inversion Hge as [|? ? Hj _]; subst. cbn [app first_mismatch].
    destruct (Nat.eqb_spec j k); [lia | reflexivity].
Qed.

(** The verdict on a new mapper, read on the flags. *)
Lemma verdict_negb_ordered (search : string) (streams : list stream_info) :
  (streams_to_be_reordered (new_mapper search) streams).2 =
    Ok (negb (already_ordered search streams)).
Proof.
  rewrite ReorderAudioFacts.verdict_on_indices.
  unfold already_ordered, matched_indices, unmatched_indices.
  destruct (ordered_flags (match_flags search streams)) eqn:Ho.
  - rewrite (ReorderAudioFacts.positions_ordered _ 0 Ho).
    rewrite ReorderAudioFacts.first_mismatch_seq.
    destruct (positions true 0 (match_flags search streams)); [reflexivity|].
    destruct (positions false 0 (match_flags search streams)); reflexivity.
  - destruct (first_mismatch_unordered _ 0 Ho) as (Hm & Ht & Hf).
    rewrite Hm.
    destruct (positions true 0 (match_flags search streams)); [congruence|].
    destruct (positions false 0 (match_flags search streams)); [congruence|].
    reflexivity.
Qed.

(** X11: on the mapper a hook creates, the verdict is "reorder" exactly when
    the inventory is not in order already, that is when some audio
    stream that matches comes after an audio stream that does not. *)
Theorem verdict_is_disorder (search : string) (streams : list stream_info) :
  (streams_to_be_reordered (new_mapper search) streams).2 =
    Ok (negb (already_ordered search streams)).
Proof. apply verdict_negb_ordered. Qed.

(** *** The tag test *)

(** The keys of a dictionary, as the generator of the test sees them. *)
Lemma tag_gate (t : gmap string string) :
  existsb (λ k, Py.in_list (Py.lower k) ["title"; "language"])
    (map_to_list t).*1 = true <->
  exists k, is_Some (t !! k) /\
            Py.in_list (Py.lower k) ["title"; "language"] = true.
Proof.
  rewrite existsb_exists. split.
  - intros (k & Hin & Hk). exists k. split; [|exact Hk].
    apply list_elem_of_In, list_elem_of_fmap in Hin as ([k' v] & -> & Hkv).
    apply elem_of_map_to_list in Hkv. now exists v.
  - intros (k & [v Hv] & Hk). exists k. split; [|exact Hk].
    apply list_elem_of_In, list_elem_of_fmap. exists (k, v).
    split; [reflexivity|]. now apply elem_of_map_to_list.
Qed.

Lemma tag_gate_nonempty (t : gmap string string) (k : string) :
  is_Some (t !! k) -> bool_decide (t = ∅) = false.
Proof.
  intros [v Hv]. apply bool_decide_eq_false_2. intros ->.
  now rewrite lookup_empty in Hv.
Qed.

(** X12: a stream without tags is never matched; a stream is matched only
    if one of its tag keys reads [title] or [language] in lower case;
    with an empty search string every such stream is matched. *)
Theorem tag_test_gate (search : string) (t : gmap string string) :
  test_tags_for_search_string search None = false /\
  (test_tags_for_search_string search (Some t) = true ->
   exists k, is_Some (t !! k) /\
             Py.in_list (Py.lower k) ["title"; "language"] = true) /\
  (test_tags_for_search_string EmptyString (Some t) = true <->
   exists k, is_Some (t !! k) /\
             Py.in_list (Py.lower k) ["title"; "language"] = true).
Proof.
  split; [reflexivity|]. unfold test_tags_for_search_string. split.
  - destruct (existsb _ _) eqn:E; [|rewrite andb_false_r; discriminate].
    intros _. now apply tag_gate.
  - rewrite <- tag_gate. destruct (existsb _ _) eqn:E.
    + split; [reflexivity|]. intros _.
      apply tag_gate in E as (k & Hk & _).
      rewrite (tag_gate_nonempty t k Hk). cbn [negb andb Py.lower].
      now rewrite PyMoreFacts.contains_empty_pattern.
    + rewrite andb_false_r. split; discriminate.
Qed.

Lemma tag_test_gate_witness :
  test_tags_for_search_string EmptyString (Some titled_eng) = true.
Proof.
  apply (proj2 (proj2 (tag_test_gate EmptyString titled_eng))).
  exists "title". split; [exists "ENG Stereo" |]; reflexivity.
Defined.

(** X13: for a search string typed in lower case and a stream that has a
    [language] or a [title] tag, the test is the one of the
    specification: one of the two tags, lower-cased, contains the
    search string. *)
Theorem tag_test_lower_case (search : string) (t : gmap string string) :
  Py.lower search = search ->
  is_Some (t !! "language") \/ is_Some (t !! "title") ->
  test_tags_for_search_string search (Some t) = spec_matches search t.
Proof.
  intros Hl Hk. unfold test_tags_for_search_string, spec_matches.
  assert (Hg : existsb (λ k, Py.in_list (Py.lower k) ["title"; "language"])
                 (map_to_list t).*1 = true).
  { apply tag_gate. destruct Hk as [Hk | Hk];
      [exists "language" | exists "title"]; split; (exact Hk || reflexivity). }
  assert (Hn : bool_decide (t = ∅) = false).
  { destruct Hk as [Hk | Hk]; eapply tag_gate_nonempty; exact Hk. }
  rewrite Hg, Hn, Hl. cbn [negb andb]. unfold get_or_empty.
  destruct (t !! "language") as [l|], (t !! "title") as [x|];
    cbn [from_option id Py.lower orb].
  - destruct (Py.contains search (Py.lower l)); [reflexivity|].
    now destruct (Py.contains search (Py.lower x)).
  - destruct (Py.contains search (Py.lower l)) eqn:El; [reflexivity|].
    destruct (Py.contains search EmptyString) eqn:E; [|reflexivity].
    apply PyMoreFacts.contains_in_empty in E. subst search.
    rewrite PyMoreFacts.contains_empty_pattern in El. discriminate El.
  - destruct (Py.contains search EmptyString) eqn:E.
    + apply PyMoreFacts.contains_in_empty in E. subst search.
      now rewrite PyMoreFacts.contains_empty_pattern.
    + now destruct (Py.contains search (Py.lower x)).
  - destruct Hk as [[? H] | [? H]]; discriminate H.
Qed.

Lemma tag_test_lower_case_witness :
  test_tags_for_search_string "eng" (Some titled_eng) =
  spec_matches "eng" titled_eng.
Proof.
  apply (tag_test_lower_case "eng" titled_eng); [reflexivity|].
  left. exists "und". reflexivity.
Defined.

(** *** The resolver and the hook *)

Section LookupMoreFacts.

Variable lookup_movie : string -> string -> string -> result (list media).
Variable lookup_series : string -> string -> string -> result (list media).
Variable languages_get : string -> option language.
Variable probe_file : string -> option (list stream_info).
Variable load_settings : option Z -> Settings.

Lemma truthy_nonempty (a : string) :
  a <> EmptyString -> Py.truthy (Some a) = true.
Proof. destruct a; [congruence | reflexivity]. Qed.

(** X14: an exception of the lookup client is not caught: when the enabled
    and configured source raises, [set_langcode] raises the same
    exception, and neither the other source nor the configured search
    string is used.  An [originalLanguage] without [name] is a
    [KeyError]. *)
Theorem resolver_errors_propagate (s : Settings) (abspath : string) (e : exn) :
  (use_radarr s = true ->
   radarr_url s <> EmptyString -> radarr_api_key s <> EmptyString ->
   lookup_movie (radarr_url s) (radarr_api_key s) abspath = Raise e ->
   set_langcode lookup_movie lookup_series languages_get s abspath = Raise e) /\
  (use_radarr s = false -> use_sonarr s = true ->
   sonarr_url s <> EmptyString -> sonarr_api_key s <> EmptyString ->
   lookup_series (sonarr_url s) (sonarr_api_key s) abspath = Raise e ->
   set_langcode lookup_movie lookup_series languages_get s abspath = Raise e) /\
  (forall first rest original_language,
     originalLanguage first = Some original_language ->
     original_language <> ∅ -> original_language !! "name" = None ->
     original_language_code languages_get (first :: rest)
     = Raise (KeyError "name")).
Proof.
  split; [|split].
  - intros Hu Hurl Hkey Hl. unfold set_langcode, get_language_from_radarr.
    rewrite Hu, (truthy_nonempty _ Hurl), (truthy_nonempty _ Hkey), Hl.
    reflexivity.
  - intros Hr Hu Hurl Hkey Hl. unfold set_langcode, get_language_from_sonarr.
    rewrite Hr, Hu, (truthy_nonempty _ Hurl), (truthy_nonempty _ Hkey), Hl.
    reflexivity.
  - intros first rest ol Ho Hne Hn. cbn [original_language_code].
    rewrite Ho, Hn. now rewrite bool_decide_eq_false_2.
Qed.

(** X15: the file test returns [data] untouched when the probe fails, raises
    what the resolver raises, and otherwise sets
    [add_file_to_pending_tasks] exactly when, for the resolved search
    string, a matching audio stream comes after a non-matching one; it
    never clears the flag. *)
Theorem file_test_verdict (d : file_test_data) :
  let hook :=
    on_library_management_file_test lookup_movie lookup_series languages_get
      probe_file load_settings d in
  let resolved :=
    set_langcode lookup_movie lookup_series languages_get
      (match library_id d with
       | None | Some 0 => load_settings None
       | Some id => load_settings (Some id)
       end) (path d) in
  (probe_file (path d) = None -> hook = Ok d) /\
  (forall streams e,
     probe_file (path d) = Some streams -> resolved = Raise e ->
     hook = Raise e) /\
  (forall streams search,
     probe_file (path d) = Some streams -> resolved = Ok search ->
     hook =
       Ok (if already_ordered search streams then d
           else {| path := path d; library_id := library_id d;
                   add_file_to_pending_tasks := true |})).
Proof.
  cbv zeta. unfold on_library_management_file_test. split; [|split].
  - now intros ->.
  - intros streams e -> Hr. cbv zeta. now rewrite Hr.
  - intros streams search -> Hr. cbv zeta. rewrite Hr.
    cbn [mbind result_bind]. rewrite verdict_negb_ordered.
    now destruct (already_ordered search streams).
Qed.

End LookupMoreFacts.

Lemma resolver_errors_propagate_witness :
  set_langcode (λ _ _ _, Raise OSError) (λ _ _ _, Ok []) (λ _, None)
    radarr_on "/library/film.mkv" = Raise OSError.
Proof.
  apply (proj1 (resolver_errors_propagate (λ _ _ _, Raise OSError)
                  (λ _ _ _, Ok []) (λ _, None) radarr_on "/library/film.mkv"
                  OSError)); (reflexivity || discriminate).
Defined.

Lemma file_test_verdict_witness :
  on_library_management_file_test (λ _ _ _, Ok []) (λ _ _ _, Ok [])
    (λ _, None) (λ _, Some en_video_fr_en) (λ _, search_en) film_test =
  Ok {| path := "/library/film.mkv"; library_id := Some 1;
        add_file_to_pending_tasks := true |}.
Proof.
  etransitivity.
  - apply (proj2 (proj2 (file_test_verdict (λ _ _ _, Ok []) (λ _ _ _, Ok [])
             (λ _, None) (λ _, Some en_video_fr_en) (λ _, search_en) film_test))
             en_video_fr_en "en"); reflexivity.
  - reflexivity.
Defined.

End ReorderAudioMoreFacts.

(** ** The four buckets of the reorder plugin *)

Module ReorderBucketsFacts.
Import ReorderAudio.

Lemma tokens_cons (p : stream_info * nat) (l : list (stream_info * nat)) :
  tokens (p :: l) = "-map" :: selector (codec_type p.1) p.2 :: tokens l.
Proof. reflexivity. Qed.

(** One call of [custom_stream_mapping] on an audio stream leaves the
    buckets of the other streams alone; the flag is raised by a match. *)
Lemma custom_audio_others (m : mapper) (stream : stream_info) (i : nat) :
  stream_type m = audio -> codec_type stream = audio ->
  let m1 := (custom_stream_mapping m stream i).1 in
  first_stream_mapping m1 = first_stream_mapping m /\
  last_stream_mapping m1 = last_stream_mapping m /\
  found_search_string_streams m1 =
    found_search_string_streams m
    || test_tags_for_search_string (search_string m) (tags stream).
Proof.
  intros Hm Hs. unfold custom_stream_mapping. rewrite Hs, Hm.
  rewrite bool_decide_eq_true_2 by reflexivity.
  destruct (test_tags_for_search_string _ _); cbn.
  - now rewrite orb_true_r.
  - now rewrite orb_false_r.
Qed.

(** On another stream it adds the selector to the first bucket before a
    match was seen and to the last bucket after. *)
Lemma custom_other_others (m : mapper) (stream : stream_info) (i : nat) :
  stream_type m = audio -> codec_type stream <> audio ->
  let m1 := (custom_stream_mapping m stream i).1 in
  first_stream_mapping m1 =
    (if found_search_string_streams m then first_stream_mapping m
     else first_stream_mapping m ++ tokens [(stream, i)]) /\
  last_stream_mapping m1 =
    (if found_search_string_streams m
     then last_stream_mapping m ++ tokens [(stream, i)]
     else last_stream_mapping m) /\
  found_search_string_streams m1 = found_search_string_streams m.
Proof.
  intros Hm Hs. unfold custom_stream_mapping. rewrite Hm.
  rewrite bool_decide_eq_false_2 by exact Hs.
  destruct (found_search_string_streams m); cbn; now repeat split.
Qed.

Lemma custom_keeps_search (m : mapper) (stream : stream_info) (i : nat) :
  let m1 := (custom_stream_mapping m stream i).1 in
  stream_type m1 = stream_type m /\ search_string m1 = search_string m.
Proof.
  unfold custom_stream_mapping.
  destruct (bool_decide _); [destruct (test_tags_for_search_string _ _)
                            | destruct (negb _)]; cbn; now split.
Qed.

(** Once a match was seen, every other stream goes to the last bucket. *)
Lemma others_after_match (streams : list stream_info) :
  forall (c : codec_type_t -> nat) (m : mapper),
    stream_type m = audio -> found_search_string_streams m = true ->
    let m' := map_streams streams c m in
    first_stream_mapping m' = first_stream_mapping m /\
    last_stream_mapping m' =
      last_stream_mapping m ++
      tokens (filter (λ p, codec_type p.1 <> audio) (numbered streams c)) /\
    found_search_string_streams m' = true.
Proof.
  induction streams as [|stream rest IH]; intros c m Hm Hf; cbv zeta.
  - cbn. now rewrite app_nil_r.
  - cbn [map_streams numbered]. unfold test_stream_needs_processing.
    set (m1 := (custom_stream_mapping m stream (c (codec_type stream))).1).
    set (c1 := λ t', if bool_decide (t' = codec_type stream)
                     then S (c t') else c t').
    destruct (custom_keeps_search m stream (c (codec_type stream))) as [Hty _].
    fold m1 in Hty. rewrite Hm in Hty.
    destruct (decide (codec_type stream = audio)) as [Ha | Ha].
    + destruct (custom_audio_others m stream (c (codec_type stream)) Hm Ha)
        as (H1 & H2 & H3). fold m1 in H1, H2, H3. rewrite Hf in H3.
      cbn [orb] in H3.
      destruct (IH c1 m1 Hty H3) as (I1 & I2 & I3).
      rewrite I1, I2, H1, H2.
      rewrite filter_cons_False by (cbn; intros H; now apply H).
      now repeat split.
    + destruct (custom_other_others m stream (c (codec_type stream)) Hm Ha)
        as (H1 & H2 & H3). fold m1 in H1, H2, H3. rewrite Hf in H1, H2, H3.
      destruct (IH c1 m1 Hty H3) as (I1 & I2 & I3).
      rewrite I1, I2, H1, H2. rewrite filter_cons_True by exact Ha.
      rewrite tokens_cons. split; [reflexivity|]. split; [|exact I3].
      now rewrite <- app_assoc.
Qed.

(** Before that, the other streams go to the first bucket up to the
    first match and to the last bucket from it on. *)
Lemma others_split (streams : list stream_info) :
  forall (c : codec_type_t -> nat) (m : mapper),
    stream_type m = audio -> found_search_string_streams m = false ->
    let l := numbered streams c in
    let m' := map_streams streams c m in
    first_stream_mapping m' =
      first_stream_mapping m ++
      tokens (filter (λ p, codec_type p.1 <> audio)
                (before_first_match (search_string m) l)) /\
    last_stream_mapping m' =
      last_stream_mapping m ++
      tokens (filter (λ p, codec_type p.1 <> audio)
                (from_first_match (search_string m) l)) /\
    found_search_string_streams m' =
      bool_decide (from_first_match (search_string m) l <> []).
Proof.
  induction streams as [|stream rest IH]; intros c m Hm Hf; cbv zeta.
  - cbn. now rewrite !app_nil_r.
  - cbn [map_streams numbered before_first_match from_first_match fst].
    unfold test_stream_needs_processing.
    set (m1 := (custom_stream_mapping m stream (c (codec_type stream))).1).
    set (c1 := λ t', if bool_decide (t' = codec_type stream)
                     then S (c t') else c t').
    destruct (custom_keeps_search m stream (c (codec_type stream))) as [Hty Hs].
    fold m1 in Hty, Hs. rewrite Hm in Hty. unfold is_match.
    destruct (decide (codec_type stream = audio)) as [Ha | Ha].
    + rewrite (bool_decide_eq_true_2 _ Ha). cbn [andb].
      destruct (custom_audio_others m stream (c (codec_type stream)) Hm Ha)
        as (H1 & H2 & H3). fold m1 in H1, H2, H3. rewrite Hf in H3.
      cbn [orb] in H3.
      destruct (test_tags_for_search_string (search_string m) (tags stream)).
      * destruct (others_after_match rest c1 m1 Hty H3) as (I1 & I2 & I3).
        rewrite I1, I2, I3, H1, H2. cbn [filter].
        rewrite filter_cons_False by (cbn; intros H; now apply H).
        rewrite filter_nil. cbn. rewrite app_nil_r. now repeat split.
      * destruct (IH c1 m1 Hty H3) as (I1 & I2 & I3).
        rewrite I1, I2, I3, H1, H2, Hs.
        rewrite filter_cons_False by (cbn; intros H; now apply H).
        now repeat split.
    + rewrite (bool_decide_eq_false_2 _ Ha). cbn [andb].
      destruct (custom_other_others m stream (c (codec_type stream)) Hm Ha)
        as (H1 & H2 & H3). fold m1 in H1, H2, H3. rewrite Hf in H1, H2, H3.
      destruct (IH c1 m1 Hty H3) as (I1 & I2 & I3).
      rewrite I1, I2, I3, H1, H2, Hs. rewrite filter_cons_True by exact Ha.
      rewrite tokens_cons. split; [|now split].
      now rewrite <- app_assoc.
Qed.

(** The indices of the matched bucket are the positions of the matching
    streams of the numbered inventory. *)
Lemma numbered_matched (search : string) (streams : list stream_info) :
  forall c,
    (filter (λ p, is_match search p.1 = true) (numbered streams c)).*2 =
    positions true (c audio) (match_flags search streams).
Proof.
  induction streams as [|stream rest IH]; intros c; [reflexivity|].
  cbn [numbered]. unfold match_flags, is_match.
  destruct (decide (codec_type stream = audio)) as [Ha | Ha].
  - rewrite (filter_cons_True (λ s, codec_type s = audio)) by exact Ha.
    rewrite fmap_cons. cbn [positions].
    destruct (test_tags_for_search_string search (tags stream)) eqn:Ht.
    + rewrite filter_cons_True
        by (cbn; now rewrite (bool_decide_eq_true_2 _ Ha), Ht).
      rewrite fmap_cons. cbn [snd Bool.eqb]. rewrite Ha. f_equal.
      rewrite (IH _). now rewrite bool_decide_eq_true_2.
    + rewrite filter_cons_False
        by (cbn; now rewrite (bool_decide_eq_true_2 _ Ha), Ht).
      cbn [Bool.eqb]. rewrite (IH _), Ha. now rewrite bool_decide_eq_true_2.
  - rewrite (filter_cons_False (λ s, codec_type s = audio)) by exact Ha.
    rewrite filter_cons_False
      by (cbn; now rewrite (bool_decide_eq_false_2 _ Ha)).
    rewrite (IH _). rewrite bool_decide_eq_false_2; [reflexivity | congruence].
Qed.

Lemma numbered_unmatched (search : string) (streams : list stream_info) :
  forall c,
    tokens (filter (λ p, codec_type p.1 = audio /\ is_match search p.1 = false)
              (numbered streams c)) =
    unmatched_tokens (positions false (c audio) (match_flags search streams)).
Proof.
  induction streams as [|stream rest IH]; intros c; [reflexivity|].
  cbn [numbered]. unfold match_flags, is_match.
  destruct (decide (codec_type stream = audio)) as [Ha | Ha].
  - rewrite (filter_cons_True (λ s, codec_type s = audio)) by exact Ha.
    rewrite fmap_cons. cbn [positions].
    destruct (test_tags_for_search_string search (tags stream)) eqn:Ht.
    + rewrite filter_cons_False
        by (cbn; rewrite (bool_decide_eq_true_2 _ Ha), Ht; now intros [_ ?]).
      cbn [Bool.eqb]. rewrite (IH _), Ha. now rewrite bool_decide_eq_true_2.
    + rewrite filter_cons_True
        by (cbn; now rewrite (bool_decide_eq_true_2 _ Ha), Ht).
      rewrite tokens_cons. cbn [fst snd Bool.eqb].
      rewrite ReorderAudioFacts.unmatched_tokens_cons, (IH _), Ha.
      now rewrite bool_decide_eq_true_2.
  - rewrite (filter_cons_False (λ s, codec_type s = audio)) by exact Ha.
    rewrite filter_cons_False by (cbn; now intros [? _]).
    rewrite (IH _). rewrite bool_decide_eq_false_2; [reflexivity | congruence].
Qed.

Lemma before_from_first_match (search : string) (l : list (stream_info * nat)) :
  before_first_match search l ++ from_first_match search l = l.
Proof.
  induction l as [|p l IH]; [reflexivity|]. cbn.
  destruct (is_match search p.1); [reflexivity|]. cbn. now rewrite IH.
Qed.

(** Every stream falls in one of three classes. *)
Lemma three_classes (search : string) (l : list (stream_info * nat)) :
  filter (λ p, codec_type p.1 <> audio) l ++
  filter (λ p, is_match search p.1 = true) l ++
  filter (λ p, codec_type p.1 = audio /\ is_match search p.1 = false) l
  ≡ₚ l.
Proof.
  induction l as [|p l IH]; [reflexivity|].
  destruct (decide (codec_type p.1 = audio)) as [Ha | Ha].
  - rewrite (filter_cons_False (λ p, codec_type p.1 <> audio))
      by (intros H; now apply H).
    destruct (is_match search p.1) eqn:Hm.
    + rewrite filter_cons_True by exact Hm.
      rewrite filter_cons_False by (rewrite Hm; now intros [_ ?]).
      rewrite <- app_comm_cons, <- Permutation_middle. now rewrite IH.
    + rewrite filter_cons_False by (rewrite Hm; discriminate).
      rewrite filter_cons_True by (now rewrite Hm).
      rewrite <- !Permutation_middle. now rewrite IH.
  - rewrite filter_cons_True by exact Ha.
    assert (Hm : is_match search p.1 = false).
    { unfold is_match. now rewrite bool_decide_eq_false_2. }
    rewrite filter_cons_False by (rewrite Hm; discriminate).
    rewrite filter_cons_False by (now intros [? _]).
    rewrite <- app_comm_cons. now rewrite IH.
Qed.

(** The run over the streams does not touch [advanced_options]. *)
Lemma map_streams_advanced_options (streams : list stream_info) :
  forall c m, advanced_options (map_streams streams c m) = advanced_options m.
Proof.
  induction streams as [|stream rest IH]; intros c m; [reflexivity|].
  cbn [map_streams]. rewrite IH.
  unfold test_stream_needs_processing, custom_stream_mapping.
  destruct (bool_decide _); [destruct (test_tags_for_search_string _ _)
                            | destruct (negb _)]; reflexivity.
Qed.

(** X16: on the mapper a hook creates, the four buckets hold the selectors
    of four parts of the numbered inventory: the other streams in front
    of the first match, the matching audio streams, the audio streams
    that do not match, and the other streams from the first match on,
    each part in probe order.  The four parts are a rearrangement of
    the inventory: the arguments [order_stream_mapping] builds map every
    stream once, none twice. *)
Theorem buckets_partition (search : string) (streams : list stream_info) :
  let l := numbered streams (λ _, 0%nat) in
  let m' := streams_need_processing (new_mapper search) streams in
  let pre :=
    filter (λ p, codec_type p.1 <> audio) (before_first_match search l) in
  let post :=
    filter (λ p, codec_type p.1 <> audio) (from_first_match search l) in
  let matched := filter (λ p, is_match search p.1 = true) l in
  let unmatched :=
    filter (λ p, codec_type p.1 = audio /\ is_match search p.1 = false) l in
  first_stream_mapping m' = tokens pre /\
  search_string_stream_mapping m' = matched_tokens matched.*2 /\
  unmatched_stream_mapping m' = tokens unmatched /\
  last_stream_mapping m' = tokens post /\
  found_search_string_streams m' = bool_decide (matched <> []) /\
  advanced_options (order_stream_mapping m') =
    ["-c"; "copy"; "-disposition:a"; "-default"] ++
    tokens pre ++ matched_tokens matched.*2 ++ tokens unmatched ++ tokens post /\
  pre ++ matched ++ unmatched ++ post ≡ₚ l.
Proof.
  cbv zeta.
  destruct (others_split streams (λ _, 0%nat) (new_mapper search) eq_refl eq_refl)
    as (H1 & H2 & H3). cbv zeta in H1, H2, H3. cbn [new_mapper
      first_stream_mapping last_stream_mapping search_string app] in H1, H2, H3.
  destruct (ReorderAudioFacts.fresh_buckets search streams) as [H4 H5].
  cbv zeta in H4, H5. unfold matched_indices in H4. unfold unmatched_indices in H5.
  rewrite <- (numbered_matched search streams (λ _, 0%nat)) in H4.
  rewrite <- (numbered_unmatched search streams (λ _, 0%nat)) in H5.
  fold (streams_need_processing (new_mapper search) streams) in H1, H2, H3.
  split; [exact H1|]. split; [exact H4|]. split; [exact H5|].
  split; [exact H2|]. split; [|split].
  - rewrite H3. apply bool_decide_ext.
    set (l := numbered streams (λ _, 0%nat)). clearbody l.
    induction l as [|p l IH]; [now split|]. cbn [from_first_match].
    destruct (is_match search p.1) eqn:Hm.
    + rewrite filter_cons_True by exact Hm. now split.
    + rewrite filter_cons_False by (rewrite Hm; discriminate). exact IH.
  - unfold order_stream_mapping. cbn [advanced_options].
    rewrite H1, H2, H4, H5.
    unfold streams_need_processing at 1.
    rewrite map_streams_advanced_options. cbn [new_mapper advanced_options app].
    now rewrite <- !app_assoc.
  - set (l := numbered streams (λ _, 0%nat)).
    set (pre := filter _ (before_first_match search l)).
    set (post := filter _ (from_first_match search l)).
    set (ma := filter (λ p, is_match search p.1 = true) l).
    set (un := filter (λ p, codec_type p.1 = audio /\ _) l).
    transitivity ((pre ++ post) ++ ma ++ un).
    + rewrite <- (app_assoc pre post). apply Permutation_app_head.
      rewrite (app_assoc ma un post). apply Permutation_app_comm.
    + unfold pre, post. rewrite <- filter_app, before_from_first_match.
      apply three_classes.
Qed.

(** *** The inventory after the reordering *)

Lemma match_flags_app (search : string) (a b : list stream_info) :
  match_flags search (a ++ b) = match_flags search a ++ match_flags search b.
Proof. unfold match_flags. now rewrite filter_app, fmap_app. Qed.

Lemma match_flags_others (search : string) (l : list (stream_info * nat)) :
  match_flags search (filter (λ p, codec_type p.1 <> audio) l).*1 = [].
Proof.
  induction l as [|p l IH]; [reflexivity|].
  destruct (decide (codec_type p.1 <> audio)) as [Ha | Ha].
  - rewrite filter_cons_True by exact Ha. rewrite fmap_cons.
    unfold match_flags. rewrite filter_cons_False by exact Ha. exact IH.
  - rewrite filter_cons_False by exact Ha. exact IH.
Qed.

Lemma match_flags_matched (search : string) (l : list (stream_info * nat)) :
  forallb id
    (match_flags search (filter (λ p, is_match search p.1 = true) l).*1) = true.
Proof.
  induction l as [|p l IH]; [reflexivity|].
  destruct (is_match search p.1) eqn:Hm.
  - rewrite filter_cons_True by exact Hm. rewrite fmap_cons.
    unfold is_match in Hm. apply andb_true_iff in Hm as [Ha Ht].
    apply bool_decide_eq_true_1 in Ha. unfold match_flags.
    rewrite filter_cons_True by exact Ha. rewrite fmap_cons.
    cbn [forallb]. rewrite Ht. exact IH.
  - rewrite filter_cons_False by (rewrite Hm; discriminate). exact IH.
Qed.

Lemma match_flags_unmatched (search : string) (l : list (stream_info * nat)) :
  forallb negb
    (match_flags search
       (filter (λ p, codec_type p.1 = audio /\ is_match search p.1 = false) l).*1)
  = true.
Proof.
  induction l as [|p l IH]; [reflexivity|].
  destruct (decide (codec_type p.1 = audio /\ is_match search p.1 = false))
    as [[Ha Hm] | Hn].
  - rewrite filter_cons_True by (now split). rewrite fmap_cons.
    unfold match_flags. rewrite filter_cons_True by exact Ha. rewrite fmap_cons.
    cbn [forallb]. unfold is_match in Hm.
    rewrite (bool_decide_eq_true_2 _ Ha) in Hm. cbn [andb] in Hm. rewrite Hm.
    exact IH.
  - rewrite filter_cons_False by exact Hn. exact IH.
Qed.

Lemma ordered_true_then_false (a b : list bool) :
  forallb id a = true -> forallb negb b = true -> ordered_flags (a ++ b) = true.
Proof.
  intros Ha Hb. induction a as [|[|] a IH]; cbn in *.
  - destruct b as [|[|] b]; cbn in *; (reflexivity || discriminate || exact Hb).
  - now apply IH.
  - discriminate Ha.
Qed.

(** X17: reordering settles the file: for the streams taken in the order in
    which the plugin's arguments map them (tags unchanged, as the
    streams are copied) the verdict of a new run is "nothing to do". *)
Theorem reordered_is_in_order (search : string) (streams : list stream_info) :
  already_ordered search (reordered search streams) = true /\
  (streams_to_be_reordered (new_mapper search) (reordered search streams)).2
  = Ok false.
Proof.
  assert (H : already_ordered search (reordered search streams) = true).
  { unfold already_ordered, reordered. cbv zeta.
    rewrite !fmap_app, !match_flags_app, !match_flags_others.
    rewrite app_nil_r. cbn [app].
    apply ordered_true_then_false;
      [apply match_flags_matched | apply match_flags_unmatched]. }
  split; [exact H|].
  rewrite ReorderAudioMoreFacts.verdict_negb_ordered. now rewrite H.
Qed.

End ReorderBucketsFacts.
